(** * update_usage.py: a shallow embedding and its verified properties

    The script [scripts/update_usage.py] polls a usage number for each of a
    fixed list of providers, writes the numbers and a timestamp to a JSON
    file and sends an e-mail alert for every number above a threshold.

    The embedding keeps the script's shape.  Everything the script reads
    from outside (the process environment, the random generator behind the
    stubbed fetch, the clock, the directory of the script, the behaviour of
    the mail relay) is a field of a read-only [world]; everything it changes
    (the file system, the standard output, the conversation with the mail
    relay) lives in a [state] threaded through a small state-and-exception
    monad.  Python strings are Rocq strings of code points below 256. *)

From Stdlib Require Import Ascii String ZArith Lia.
From stdpp Require Import gmap strings list pretty.

Open Scope string_scope.
Open Scope list_scope.
Open Scope Z_scope.

(** ** Python values and dictionaries *)

Module Py.

(** The two kinds of value the script stores in [usage_data]. *)
Inductive value :=
  | VInt (n : Z)
  | VStr (s : string).

(** [isinstance(v, int)] *)
Definition isinstance_int (v : value) : bool :=
  match v with VInt _ => true | VStr _ => false end.

(** A [dict] keeps its keys in insertion order, which is the order of
    [items()] and of [json.dump]; an association list with unique keys. *)
Definition dict := list (string * value).

(** [d[k] = v]: replaces the value in place when [k] is present, appends
    the entry otherwise. *)
Fixpoint dict_set (k : string) (v : value) (d : dict) : dict :=
  match d with
  | [] => [(k, v)]
  | (k', v') :: d' =>
      if decide (k' = k) then (k, v) :: d' else (k', v') :: dict_set k v d'
  end.

(** [d.get(k)] *)
Fixpoint dict_get (k : string) (d : dict) : option value :=
  match d with
  | [] => None
  | (k', v') :: d' => if decide (k' = k) then Some v' else dict_get k d'
  end.

Definition dict_keys (d : dict) : list string := d.*1.

(** Truth value of the result of [os.environ.get]: [None] and the empty
    string are false, every other string is true. *)
Definition truthy (o : option string) : bool :=
  match o with
  | None => false
  | Some s => negb (String.eqb s "")
  end.

(** [all([...])] over such results. *)
Definition all_truthy (l : list (option string)) : bool := forallb truthy l.

(** [s.upper()] on the ASCII letters. *)
Definition upper_char (c : ascii) : ascii :=
  let n := nat_of_ascii c in
  if ((97 <=? n) && (n <=? 122))%nat then ascii_of_nat (n - 32) else c.

Fixpoint upper (s : string) : string :=
  match s with
  | EmptyString => EmptyString
  | String c r => String (upper_char c) (upper r)
  end.

(** [str(n)] for an [int]. *)
Definition str_int (n : Z) : string := pretty n.

End Py.

(** ** Paths: [os.path.join] and [os.path.dirname] (posixpath) *)

Module Path.

Definition sep : ascii := "/"%char.

Definition is_sep (c : ascii) : bool := Ascii.eqb c sep.

Definition startswith_sep (p : string) : bool :=
  match p with
  | String c _ => is_sep c
  | EmptyString => false
  end.

Fixpoint endswith_sep (p : string) : bool :=
  match p with
  | EmptyString => false
  | String c EmptyString => is_sep c
  | String _ r => endswith_sep r
  end.

(** [os.path.join(a, b)] *)
Definition join (a b : string) : string :=
  if startswith_sep b then b
  else if String.eqb a "" || endswith_sep a then a +:+ b
  else a +:+ String sep b.

(** [p[:p.rfind('/') + 1]] *)
Fixpoint head (p : string) : string :=
  match p with
  | EmptyString => EmptyString
  | String c r =>
      match head r with
      | EmptyString => if is_sep c then String c EmptyString else EmptyString
      | h => String c h
      end
  end.

(** [p.rstrip('/')] *)
Fixpoint rstrip_sep (p : string) : string :=
  match p with
  | EmptyString => EmptyString
  | String c r =>
      match rstrip_sep r with
      | EmptyString => if is_sep c then EmptyString else String c EmptyString
      | t => String c t
      end
  end.

(** [os.path.dirname(p)]: the head, without its trailing separators unless
    it consists of separators only. *)
Definition dirname (p : string) : string :=
  let h := head p in
  match rstrip_sep h with
  | EmptyString => h
  | t => t
  end.

End Path.

(** ** [datetime.datetime] and [isoformat] *)

Module Datetime.

Definition is_leap (y : Z) : bool :=
  (y mod 4 =? 0) && (negb (y mod 100 =? 0) || (y mod 400 =? 0)).

Definition days_in_month (y m : Z) : Z :=
  if m =? 2 then (if is_leap y then 29 else 28)
  else if (m =? 4) || (m =? 6) || (m =? 9) || (m =? 11) then 30
  else 31.

(** The ranges Python's [datetime] enforces on its fields. *)
Definition fields_ok (y mo d h mi s us : Z) : bool :=
  (1 <=? y) && (y <=? 9999) && (1 <=? mo) && (mo <=? 12) &&
  (1 <=? d) && (d <=? days_in_month y mo) &&
  (0 <=? h) && (h <? 24) && (0 <=? mi) && (mi <? 60) &&
  (0 <=? s) && (s <? 60) && (0 <=? us) && (us <? 1000000).

(** A naive (zone-less) [datetime]: a value of this type always satisfies
    the field ranges, as a Python [datetime] object does. *)
Record datetime := mk_datetime {
  year : Z; month : Z; day : Z;
  hour : Z; minute : Z; second : Z; microsecond : Z;
  in_range : fields_ok year month day hour minute second microsecond = true
}.

Definition digit (n : Z) : ascii := ascii_of_nat (48 + Z.to_nat n).

(** ["%0wd" % n] for [0 <= n < 10^w]: exactly [w] decimal digits. *)
Fixpoint zfill (w : nat) (n : Z) : string :=
  match w with
  | O => EmptyString
  | S w' => zfill w' (n / 10) +:+ String (digit (n mod 10)) EmptyString
  end.

(** [dt.isoformat()]: [YYYY-MM-DDTHH:MM:SS], followed by [.ffffff] when the
    microsecond field is not zero. *)
Definition isoformat (dt : datetime) : string :=
  zfill 4 (year dt) +:+ "-" +:+ zfill 2 (month dt) +:+ "-" +:+ zfill 2 (day dt)
  +:+ "T" +:+ zfill 2 (hour dt) +:+ ":" +:+ zfill 2 (minute dt)
  +:+ ":" +:+ zfill 2 (second dt)
  +:+ (if microsecond dt =? 0 then "" else "." +:+ zfill 6 (microsecond dt)).

(** *** Reading a timestamp back

    What it means for a string to be an ISO-8601 timestamp of the two
    shapes above: a reader that accepts exactly
    [YYYY-MM-DDTHH:MM:SS] and [YYYY-MM-DDTHH:MM:SS.ffffff] with fields in
    range, and returns the fields. *)

Definition digit_val (c : ascii) : option Z :=
  let n := nat_of_ascii c in
  if ((48 <=? n) && (n <=? 57))%nat then Some (Z.of_nat n - 48) else None.

Fixpoint take_digits (w : nat) (acc : Z) (s : string) : option (Z * string) :=
  match w with
  | O => Some (acc, s)
  | S w' =>
      match s with
      | EmptyString => None
      | String c r =>
          match digit_val c with
          | Some v => take_digits w' (10 * acc + v) r
          | None => None
          end
      end
  end.

Definition expect (c : ascii) (s : string) : option string :=
  match s with
  | String c' r => if Ascii.eqb c c' then Some r else None
  | EmptyString => None
  end.

Definition parse_iso8601 (s : string) : option (Z * Z * Z * Z * Z * Z * Z) :=
  '(y, s) ← take_digits 4 0 s; s ← expect "-" s;
  '(mo, s) ← take_digits 2 0 s; s ← expect "-" s;
  '(d, s) ← take_digits 2 0 s; s ← expect "T" s;
  '(h, s) ← take_digits 2 0 s; s ← expect ":" s;
  '(mi, s) ← take_digits 2 0 s; s ← expect ":" s;
  '(sec, s) ← take_digits 2 0 s;
  '(us, s) ← match s with
             | EmptyString => Some (0, s)
             | _ => s ← expect "." s; take_digits 6 0 s
             end;
  if String.eqb s "" && fields_ok y mo d h mi sec us
  then Some (y, mo, d, h, mi, sec, us) else None.

Definition is_iso8601 (s : string) : Prop := is_Some (parse_iso8601 s).

End Datetime.

(** ** [json.dump(obj, f, indent=2)] for a flat dictionary *)

Module Json.

Definition quote : ascii := "034"%char.
Definition backslash : ascii := "092"%char.
Definition newline : ascii := "010"%char.

Definition hex_digit (n : nat) : ascii :=
  match String.get n "0123456789abcdef" with
  | Some c => c
  | None => "0"%char
  end.

(** One character of a JSON string with [ensure_ascii]: the quote and the
    backslash are escaped, so is everything outside the printable range
    [' ' .. '~']. *)
Definition escape_char (c : ascii) : string :=
  let n := nat_of_ascii c in
  if Ascii.eqb c quote then String backslash (String quote EmptyString)
  else if Ascii.eqb c backslash then String backslash (String backslash EmptyString)
  else if (n =? 10)%nat then String backslash "n"
  else if (n =? 13)%nat then String backslash "r"
  else if (n =? 9)%nat then String backslash "t"
  else if (n =? 8)%nat then String backslash "b"
  else if (n =? 12)%nat then String backslash "f"
  else if ((n <? 32) || (126 <? n))%nat then
    String backslash
      ("u00" +:+ String (hex_digit (n / 16)) (String (hex_digit (n mod 16)) EmptyString))
  else String c EmptyString.

Fixpoint escape (s : string) : string :=
  match s with
  | EmptyString => EmptyString
  | String c r => escape_char c +:+ escape r
  end.

Definition encode_string (s : string) : string :=
  String quote (escape s) +:+ String quote EmptyString.

Definition encode_value (v : Py.value) : string :=
  match v with
  | Py.VInt n => Py.str_int n
  | Py.VStr s => encode_string s
  end.

Definition encode_item (kv : string * Py.value) : string :=
  "  " +:+ encode_string kv.1 +:+ ": " +:+ encode_value kv.2.

(** [json.dumps(d, indent=2)] *)
Definition dumps (d : Py.dict) : string :=
  match d with
  | [] => "{}"
  | _ =>
      String "{" (String newline EmptyString)
      +:+ String.concat (String "," (String newline EmptyString)) (encode_item <$> d)
      +:+ String newline "}"
  end.

End Json.

(** ** The outside world, the state of a run, and the monad of effects *)

(** The exceptions the script can meet.  All of them are subclasses of
    Python's [Exception]. *)
Inductive exn :=
  | FileExistsError (path : string)
  | FileNotFoundError (path : string)
  | IsADirectoryError (path : string)
  | PermissionError (path : string)
  | SMTPException (why : string).

(** [str(e)], as interpolated into the log line of the mail step. *)
Definition exn_str (e : exn) : string :=
  match e with
  | FileExistsError p => "[Errno 17] File exists: '" +:+ p +:+ "'"
  | FileNotFoundError p => "[Errno 2] No such file or directory: '" +:+ p +:+ "'"
  | IsADirectoryError p => "[Errno 21] Is a directory: '" +:+ p +:+ "'"
  | PermissionError p => "[Errno 13] Permission denied: '" +:+ p +:+ "'"
  | SMTPException why => why
  end.

(** The file system, as far as the script touches it: which paths are
    directories, the text of the regular files, and the paths on which the
    operating system refuses creation and writing.  Paths are compared as
    written (no normalisation of [..]); a directory in [dirs] stands for
    itself and the chain of directories above it. *)
Record filesystem := mk_fs {
  dirs : gset string;
  files : gmap string string;
  denied : gset string
}.

(** The message built by [MIMEText(body)] and the three header
    assignments. *)
Record message := mk_message {
  msg_body : string;
  msg_subject : string;
  msg_from : string;
  msg_to : string
}.

(** What a run does that can be observed from outside, in order.  [Notify]
    marks an entry into [send_email_notification]; the four [Smtp] events
    are the commands issued to the mail relay. *)
Inductive event :=
  | Stdout (line : string)
  | Notify (subject body : string)
  | SmtpConnect (host : string) (port : Z)
  | SmtpLogin (user password : string)
  | SmtpSendmail (sender receiver : string) (msg : message)
  | SmtpQuit.

(** The stages of a session with the mail relay.  Whether a stage raises,
    and with what error, is the relay's doing. *)
Inductive smtp_stage := AtConnect | AtLogin | AtSendmail | AtQuit.

#[global] Instance smtp_stage_eq_dec : EqDecision smtp_stage.
Proof. solve_decision. Defined.

(** Everything a run reads and cannot change. *)
Record world := mk_world {
  environ : gmap string string;        (* os.environ *)
  entropy : nat -> Z;                  (* the n-th raw draw of the generator *)
  clock : Datetime.datetime;           (* datetime.datetime.now() *)
  script_dir : string;                 (* os.path.dirname(__file__) *)
  relay : nat -> smtp_stage -> option string
                                       (* the error, if any, that a stage of
                                          the n-th mail session raises *)
}.

(** Everything a run changes. *)
Record state := mk_state {
  fs : filesystem;
  trace : list event;                  (* oldest event first *)
  draws : nat;                         (* random draws made so far *)
  sessions : nat                       (* mail sessions opened so far *)
}.

Inductive outcome (A : Type) :=
  | Ret (a : A)
  | Raise (e : exn).
Arguments Ret {A} a.
Arguments Raise {A} e.

(** A computation: from a state to a result or an exception, and the state
    reached (the effects made before an exception stay). *)
Definition M (A : Type) : Type := state -> outcome A * state.

Definition ret {A} (a : A) : M A := fun st => (Ret a, st).

Definition raise {A} (e : exn) : M A := fun st => (Raise e, st).

Definition bind {A B} (m : M A) (k : A -> M B) : M B :=
  fun st =>
    match m st with
    | (Ret a, st') => k a st'
    | (Raise e, st') => (Raise e, st')
    end.

(** [try: m  except Exception as e: h e] *)
Definition try_except {A} (m : M A) (h : exn -> M A) : M A :=
  fun st =>
    match m st with
    | (Ret a, st') => (Ret a, st')
    | (Raise e, st') => h e st'
    end.

(** [try: m  finally: f]: [f] runs on both exits; an exception of [f]
    replaces the one of [m]. *)
Definition try_finally {A} (m : M A) (f : M unit) : M A :=
  fun st =>
    match m st with
    | (r, st') =>
        match f st' with
        | (Ret _, st'') => (r, st'')
        | (Raise e, st'') => (Raise e, st'')
        end
    end.

Declare Scope py_scope.
Delimit Scope py_scope with py.
Notation "x <- m ;; k" := (bind m (fun x => k))
  (at level 100, m at next level, right associativity) : py_scope.
Notation "m ;; k" := (bind m (fun _ => k))
  (at level 100, right associativity) : py_scope.
Open Scope py_scope.

(** [for x in xs: body x], with the loop's local variables in [acc]. *)
Fixpoint for_each {A B} (xs : list A) (body : A -> B -> M B) (acc : B) : M B :=
  match xs with
  | [] => ret acc
  | x :: xs' => acc' <- body x acc ;; for_each xs' body acc'
  end.

Definition emit (e : event) : M unit :=
  fun st => (Ret tt, mk_state (fs st) (trace st ++ [e]) (draws st) (sessions st)).

(** [print(line)] *)
Definition print (line : string) : M unit := emit (Stdout line).

(** ** The script *)

Section Script.

Variable w : world.

(** *** The library calls the script makes *)

(** [os.environ.get(k)] *)
Definition os_environ_get (k : string) : option string := environ w !! k.

(** [random.randint(a, b)]: [a] plus a number below [b - a + 1] taken from
    the generator's next raw draw. *)
Definition random_randint (a b : Z) : M Z :=
  fun st =>
    (Ret (a + entropy w (draws st) mod (b - a + 1)),
     mk_state (fs st) (trace st) (S (draws st)) (sessions st)).

(** [datetime.datetime.now()] *)
Definition datetime_now : M Datetime.datetime := ret (clock w).

Definition set_fs (f : filesystem) : M unit :=
  fun st => (Ret tt, mk_state f (trace st) (draws st) (sessions st)).

(** [os.makedirs(d, exist_ok=True)].  Of the errors of the operating
    system the model has the three below; a read-only or full file system
    and a regular file further up the chain of directories are outside
    it. *)
Definition os_makedirs_exist_ok (d : string) : M unit :=
  fun st =>
    let f := fs st in
    if String.eqb d "" then raise (FileNotFoundError d) st
    else if decide (d ∈ dirs f) then ret tt st
    else if decide (is_Some (files f !! d)) then raise (FileExistsError d) st
    else if decide (d ∈ denied f) then raise (PermissionError d) st
    else set_fs (mk_fs ({[d]} ∪ dirs f) (files f) (denied f)) st.

(** [open(path, 'w')]: the file is created or truncated to length zero;
    the handle is the path.  Symbolic links and the permissions a new file
    is created with are outside the model. *)
Definition open_w (path : string) : M string :=
  fun st =>
    let f := fs st in
    let parent := Path.dirname path in
    if decide (path ∈ dirs f) then raise (IsADirectoryError path) st
    else if negb (String.eqb parent "") && bool_decide (parent ∉ dirs f)
      then raise (FileNotFoundError path) st
    else if decide (path ∈ denied f) then raise (PermissionError path) st
    else (set_fs (mk_fs (dirs f) (<[path := ""]> (files f)) (denied f)) ;;
          ret path) st.

(** [f.write(text)]: the text goes after what the file holds.  A write
    that fails once the file is open (no space left, say) is outside the
    model, as is a failing [close]. *)
Definition file_write (f : string) (text : string) : M unit :=
  fun st =>
    let old := default "" (files (fs st) !! f) in
    set_fs (mk_fs (dirs (fs st)) (<[f := old +:+ text]> (files (fs st)))
              (denied (fs st))) st.

(** [f.close()] *)
Definition file_close (f : string) : M unit := ret tt.

(** [with open(path, 'w') as f: body f] *)
Definition with_open_w (path : string) (body : string -> M unit) : M unit :=
  f <- open_w path ;; try_finally (body f) (file_close f).

(** [json.dump(d, f, indent=2)] *)
Definition json_dump_indent2 (d : Py.dict) (f : string) : M unit :=
  file_write f (Json.dumps d).

(** One command of mail session [n]: it is issued, then raises when the
    relay fails this stage. *)
Definition smtp_step (n : nat) (stage : smtp_stage) (e : event) : M unit :=
  emit e ;;
  match relay w n stage with
  | Some why => raise (SMTPException why)
  | None => ret tt
  end.

(** [smtplib.SMTP_SSL(host, port)]: opens the next session by connecting. *)
Definition SMTP_SSL (host : string) (port : Z) : M nat :=
  fun st =>
    let n := sessions st in
    (smtp_step n AtConnect (SmtpConnect host port) ;; ret n)
      (mk_state (fs st) (trace st) (draws st) (S n)).

Definition smtp_login (n : nat) (user password : string) : M unit :=
  smtp_step n AtLogin (SmtpLogin user password).

Definition smtp_sendmail (n : nat) (sender receiver : string) (msg : message)
  : M unit :=
  smtp_step n AtSendmail (SmtpSendmail sender receiver msg).

(** [SMTP.__exit__]: sends QUIT.  The model sends it after every session
    that got connected; a server that has dropped the connection, to which
    smtplib sends nothing more, is outside it. *)
Definition smtp_exit (n : nat) : M unit := smtp_step n AtQuit SmtpQuit.

(** [with smtplib.SMTP_SSL(host, port) as smtp_server: body smtp_server] *)
Definition with_SMTP_SSL (host : string) (port : Z) (body : nat -> M unit)
  : M unit :=
  smtp_server <- SMTP_SSL host port ;;
  try_finally (body smtp_server) (smtp_exit smtp_server).

(** *** [fetch_usage] *)

Definition fetch_usage (provider api_key : string) : M Z :=
  print ("Fetching usage for " +:+ provider +:+ "...") ;;
  random_randint 0 1000.

(** *** [send_email_notification] *)

Definition send_email_notification (subject body : string) : M unit :=
  emit (Notify subject body) ;;
  let sender_email := os_environ_get "EMAIL_SENDER" in
  let sender_password := os_environ_get "EMAIL_PASSWORD" in
  let receiver_email := os_environ_get "EMAIL_RECEIVER" in
  if negb (Py.all_truthy [sender_email; sender_password; receiver_email]) then
    print "Email configuration missing. Skipping notification."
  else
    let sender := default "" sender_email in
    let password := default "" sender_password in
    let receiver := default "" receiver_email in
    let msg := mk_message body subject sender receiver in
    try_except
      (with_SMTP_SSL "smtp.gmail.com" 465 (fun smtp_server =>
         smtp_login smtp_server sender password ;;
         smtp_sendmail smtp_server sender receiver msg) ;;
       print "Email sent successfully!")
      (fun e => print ("Failed to send email: " +:+ exn_str e)).

(** *** [main] *)

Definition providers : list string :=
  ["openai"; "anthropic"; "perplexity"; "gemini"; "huggingface"].

(** Lines 47-54: one round of the first loop. *)
Definition poll (provider : string) (usage_data : Py.dict) : M Py.dict :=
  let api_key := os_environ_get (Py.upper provider +:+ "_API_KEY") in
  if Py.truthy api_key then
    usage <- fetch_usage provider (default "" api_key) ;;
    ret (Py.dict_set provider (Py.VInt usage) usage_data)
  else
    print ("No API key found for " +:+ provider) ;;
    ret (Py.dict_set provider (Py.VInt 0) usage_data).

(** Lines 44-56: the mapping as it stands before it is written. *)
Definition assemble : M Py.dict :=
  usage_data <- for_each providers poll [] ;;
  now <- datetime_now ;;
  ret (Py.dict_set "last_updated" (Py.VStr (Datetime.isoformat now)) usage_data).

Definition output_path : string :=
  Path.join (script_dir w) "../public/usage.json".

(** Lines 59-65. *)
Definition persist (usage_data : Py.dict) : M unit :=
  os_makedirs_exist_ok (Path.dirname output_path) ;;
  with_open_w output_path (fun f => json_dump_indent2 usage_data f) ;;
  print "Usage data updated.".

(** [isinstance(usage, int) and usage > 800]: the comparison is reached
    for an [int] only. *)
Definition over_threshold (usage : Py.value) : bool :=
  Py.isinstance_int usage &&
  match usage with Py.VInt n => n >? 800 | Py.VStr _ => false end.

(** [f"{usage}"] *)
Definition str_value (usage : Py.value) : string :=
  match usage with Py.VInt n => Py.str_int n | Py.VStr s => s end.

(** Lines 69-74: one round of the second loop. *)
Definition alert (item : string * Py.value) (_ : unit) : M unit :=
  let '(provider, usage) := item in
  if over_threshold usage then
    send_email_notification
      ("High API Usage Alert: " +:+ provider)
      ("Your usage for " +:+ provider +:+ " has reached " +:+ str_value usage +:+ ".")
  else ret tt.

Definition check_thresholds (usage_data : Py.dict) : M unit :=
  for_each usage_data alert tt.

Definition main : M unit :=
  usage_data <- assemble ;;
  persist usage_data ;;
  check_thresholds usage_data.

End Script.

(** The state a run starts from. *)
Definition initial (f : filesystem) : state := mk_state f [] 0 0.

Definition run (w : world) (f : filesystem) : outcome unit * state :=
  main w (initial f).

(** ** Reading a trace *)

(** The notification attempts of a trace: subject and body of every entry
    into [send_email_notification], in order. *)
Fixpoint notifications (tr : list event) : list (string * string) :=
  match tr with
  | [] => []
  | Notify subject body :: tr' => (subject, body) :: notifications tr'
  | _ :: tr' => notifications tr'
  end.

(** The commands sent to the mail relay. *)
Definition is_smtp (e : event) : bool :=
  match e with
  | SmtpConnect _ _ | SmtpLogin _ _ | SmtpSendmail _ _ _ | SmtpQuit => true
  | _ => false
  end.

Definition smtp_commands (tr : list event) : list event := List.filter is_smtp tr.

(** The subject line of the alert for a provider. *)
Definition alert_subject (provider : string) : string :=
  "High API Usage Alert: " +:+ provider.

Definition alert_body (provider : string) (usage : Py.value) : string :=
  "Your usage for " +:+ provider +:+ " has reached " +:+ str_value usage +:+ ".".

(** [needle in hay] *)
Definition contains (needle hay : string) : Prop :=
  exists before after, hay = before +:+ needle +:+ after.

(** Whether the three mail settings are all present and non-empty. *)
Definition mail_configured (w : world) : bool :=
  Py.all_truthy
    [environ w !! "EMAIL_SENDER"; environ w !! "EMAIL_PASSWORD";
     environ w !! "EMAIL_RECEIVER"].

(** The message [send_email_notification] builds. *)
Definition alert_message (w : world) (subject body : string) : message :=
  mk_message body subject
    (default "" (environ w !! "EMAIL_SENDER"))
    (default "" (environ w !! "EMAIL_RECEIVER")).

(** The commands of mail session [n]: a failed connection ends it; once
    connected, QUIT is sent on the way out whether or not the body of the
    [with] block went through. *)
Definition session_commands (w : world) (n : nat) (msg : message) : list event :=
  let connect := SmtpConnect "smtp.gmail.com" 465 in
  let login :=
    SmtpLogin (msg_from msg) (default "" (environ w !! "EMAIL_PASSWORD")) in
  let send := SmtpSendmail (msg_from msg) (msg_to msg) msg in
  match relay w n AtConnect, relay w n AtLogin with
  | Some _, _ => [connect]
  | None, Some _ => [connect; login; SmtpQuit]
  | None, None => [connect; login; send; SmtpQuit]
  end.

(** The error that leaves the [with] block of session [n], if any: that of
    the connection; else that of QUIT, which replaces one raised in the
    body; else that of the body. *)
Definition session_error (w : world) (n : nat) : option string :=
  match relay w n AtConnect with
  | Some why => Some why
  | None =>
      match relay w n AtQuit with
      | Some why => Some why
      | None =>
          match relay w n AtLogin with
          | Some why => Some why
          | None => relay w n AtSendmail
          end
      end
  end.

(** What mail session [n] looks like from outside, the closing log line
    included. *)
Definition session_events (w : world) (n : nat) (msg : message) : list event :=
  session_commands w n msg ++
  [Stdout match session_error w n with
          | Some why => "Failed to send email: " +:+ why
          | None => "Email sent successfully!"
          end].

(** The alerts a mapping calls for: one per entry over the threshold, in
    the order of the entries. *)
Definition alerts (d : Py.dict) : list (string * string) :=
  (fun kv => (alert_subject kv.1, alert_body kv.1 kv.2))
    <$> List.filter (fun kv => over_threshold kv.2) d.

(** The number of notification attempts for a provider in a trace. *)
Definition attempts_for (provider : string) (tr : list event) : nat :=
  length (List.filter (fun sb => String.eqb sb.1 (alert_subject provider))
            (notifications tr)).

(** The name of the environment variable holding a provider's key. *)
Definition api_key_var (provider : string) : string :=
  Py.upper provider +:+ "_API_KEY".

(** A variable that is unset or set to the empty string. *)
Definition unset_or_empty (w : world) (var : string) : Prop :=
  environ w !! var = None \/ environ w !! var = Some "".

(** [st'] differs from [st] by lines printed and random draws only. *)
Definition logs_only (st st' : state) : Prop :=
  fs st' = fs st /\ sessions st' = sessions st /\
  exists lines, trace st' = trace st ++ (Stdout <$> lines).

(** The mapping a run assembles before it writes it. *)
Definition assembled (w : world) (f : filesystem) : Py.dict :=
  match assemble w (initial f) with
  | (Ret d, _) => d
  | (Raise _, _) => []
  end.

(** The file system lets the script create its directory (or has it) and
    write its file. *)
Definition writable (w : world) (f : filesystem) : Prop :=
  let dir := Path.dirname (output_path w) in
  (dir ∈ dirs f \/ (files f !! dir = None /\ dir ∉ denied f)) /\
  (output_path w ∉ dirs f) /\ (output_path w ∉ denied f).

(** The file system after a successful [persist]. *)
Definition written (w : world) (d : Py.dict) (f : filesystem) : filesystem :=
  mk_fs ({[Path.dirname (output_path w)]} ∪ dirs f)
        (<[output_path w := Json.dumps d]> (files f))
        (denied f).

(** ** Sample worlds

    Concrete inputs on which the script is run below. *)

Definition sample_clock : Datetime.datetime :=
  Datetime.mk_datetime 2026 11 4 17 12 3 4500 eq_refl.

Definition mail_settings : list (string * string) :=
  [("EMAIL_SENDER", "ops@example.org"); ("EMAIL_PASSWORD", "app-password");
   ("EMAIL_RECEIVER", "oncall@example.org")].

(** Only openai has a key; every draw of the generator yields 900; mail is
    configured and the relay accepts every session. *)
Definition world_one_alert : world :=
  mk_world (list_to_map (("OPENAI_API_KEY", "sk-test") :: mail_settings))
    (fun _ => 900) sample_clock "/srv/app/scripts" (fun _ _ => None).

(** As before, and perplexity has a key too. *)
Definition world_two_alerts : world :=
  mk_world
    (list_to_map (("OPENAI_API_KEY", "sk-test") :: ("PERPLEXITY_API_KEY", "pk-test")
                  :: mail_settings))
    (fun _ => 900) sample_clock "/srv/app/scripts" (fun _ _ => None).

(** As [world_one_alert], with a relay that rejects every login. *)
Definition world_bad_login : world :=
  mk_world (list_to_map (("OPENAI_API_KEY", "sk-test") :: mail_settings))
    (fun _ => 900) sample_clock "/srv/app/scripts"
    (fun _ stage =>
       if decide (stage = AtLogin)
       then Some "(535, b'5.7.8 Username and Password not accepted')"
       else None).

(** As [world_one_alert], without the receiver's address. *)
Definition world_no_receiver : world :=
  mk_world
    (list_to_map [("OPENAI_API_KEY", "sk-test"); ("EMAIL_SENDER", "ops@example.org");
                  ("EMAIL_PASSWORD", "app-password")])
    (fun _ => 900) sample_clock "/srv/app/scripts" (fun _ _ => None).

(** As [world_one_alert], with an empty password. *)
Definition world_empty_password : world :=
  mk_world
    (list_to_map [("OPENAI_API_KEY", "sk-test"); ("EMAIL_SENDER", "ops@example.org");
                  ("EMAIL_PASSWORD", ""); ("EMAIL_RECEIVER", "oncall@example.org")])
    (fun _ => 900) sample_clock "/srv/app/scripts" (fun _ _ => None).

(** A file system with nothing in it, one that holds an earlier output
    file, and one where a regular file stands in the place of the output
    directory. *)
Definition fs_empty : filesystem := mk_fs ∅ ∅ ∅.

Definition fs_stale : filesystem :=
  mk_fs {["/srv/app/scripts/../public"]}
        {["/srv/app/scripts/../public/usage.json" := "{ stale }"]} ∅.

Definition fs_blocked : filesystem :=
  mk_fs ∅ {["/srv/app/scripts/../public" := "not a directory"]} ∅.

(** ** The first loop as a function

    What the loop of lines 47-54 computes, without the effects: the
    providers are taken in order, and [k] counts the draws made so far. *)

(** A provider whose key variable holds a non-empty string. *)
Definition has_key (w : world) (provider : string) : bool :=
  Py.truthy (environ w !! api_key_var provider).

Fixpoint polled (w : world) (k : nat) (ps : list string) : Py.dict :=
  match ps with
  | [] => []
  | p :: ps' =>
      if has_key w p
      then (p, Py.VInt (entropy w k mod 1001)) :: polled w (S k) ps'
      else (p, Py.VInt 0) :: polled w k ps'
  end.

(** The line a round of the loop prints. *)
Definition poll_line (w : world) (provider : string) : string :=
  if has_key w provider
  then "Fetching usage for " +:+ provider +:+ "..."
  else "No API key found for " +:+ provider.

(** The number of providers with a key. *)
Definition keys_present (w : world) (ps : list string) : nat :=
  length (List.filter (has_key w) ps).

(** ** The exception of the write

    The exception, if any, that lines 59-63 raise on a file system of the
    model: none when the directory is there or can be made and the file
    can be opened. *)

Definition open_error (w : world) (f : filesystem) : option exn :=
  if decide (output_path w ∈ dirs f)
  then Some (IsADirectoryError (output_path w))
  else if decide (output_path w ∈ denied f)
  then Some (PermissionError (output_path w))
  else None.

Definition write_error (w : world) (f : filesystem) : option exn :=
  let dir := Path.dirname (output_path w) in
  if decide (dir ∈ dirs f) then open_error w f
  else if decide (is_Some (files f !! dir)) then Some (FileExistsError dir)
  else if decide (dir ∈ denied f) then Some (PermissionError dir)
  else open_error w f.

(** As [world_one_alert], with a relay that refuses the connection. *)
Definition world_no_connection : world :=
  mk_world (list_to_map (("OPENAI_API_KEY", "sk-test") :: mail_settings))
    (fun _ => 900) sample_clock "/srv/app/scripts"
    (fun _ stage =>
       if decide (stage = AtConnect)
       then Some "[Errno 111] Connection refused"
       else None).

(** Keys for gemini and huggingface only; the generator counts 850, 851,
    ... *)
Definition world_counting : world :=
  mk_world
    (list_to_map (("GEMINI_API_KEY", "g") :: ("HUGGINGFACE_API_KEY", "h")
                  :: mail_settings))
    (fun n => 850 + Z.of_nat n) sample_clock "" (fun _ _ => None).

(** A file system on which the output path is a directory. *)
Definition fs_directory_in_the_way : filesystem :=
  mk_fs {["/srv/app/scripts/../public";
          "/srv/app/scripts/../public/usage.json"]} ∅ ∅.

(** ** The text of the output file

    The text [json.dump] with [indent=2] leaves for the six entries of the
    mapping, written out character by character: an opening brace, one
    line per entry, each indented by two spaces and all but the last
    followed by a comma, a closing brace. *)

(** A string between double quotes. *)
Definition quoted (s : string) : string :=
  String Json.quote s +:+ String Json.quote EmptyString.

Definition expected_text
    (openai anthropic perplexity gemini huggingface : Z) (last_updated : string)
  : string :=
  "{" +:+ String Json.newline
  ("  " +:+ quoted "openai" +:+ ": " +:+ Py.str_int openai +:+ "," +:+
   String Json.newline
  ("  " +:+ quoted "anthropic" +:+ ": " +:+ Py.str_int anthropic +:+ "," +:+
   String Json.newline
  ("  " +:+ quoted "perplexity" +:+ ": " +:+ Py.str_int perplexity +:+ "," +:+
   String Json.newline
  ("  " +:+ quoted "gemini" +:+ ": " +:+ Py.str_int gemini +:+ "," +:+
   String Json.newline
  ("  " +:+ quoted "huggingface" +:+ ": " +:+ Py.str_int huggingface +:+ "," +:+
   String Json.newline
  ("  " +:+ quoted "last_updated" +:+ ": " +:+ quoted last_updated +:+
   String Json.newline "}")))))).

(** ** Proof automation *)

(** Decides a closed statement about concrete lists by evaluation. *)
Ltac in_list := apply (bool_decide_unpack _); vm_compute; exact I.

(** Steps the timestamp reader past what it has just read, leaving the
    printed fields folded. *)
Ltac next_field :=
  cbn -[Datetime.zfill Datetime.take_digits Datetime.fields_ok Z.eqb].

(** * Properties *)

(** ** The model on concrete inputs *)

Example upper_openai : api_key_var "openai" = "OPENAI_API_KEY".
Proof. reflexivity. Qed.

Example upper_keeps_non_letters : Py.upper "gpt-4 turbo" = "GPT-4 TURBO".
Proof. reflexivity. Qed.

Example dirname_of_output :
  Path.dirname (Path.join "/srv/app/scripts" "../public/usage.json")
  = "/srv/app/scripts/../public".
Proof. reflexivity. Qed.

Example dirname_at_root : Path.dirname "/usage.json" = "/".
Proof. reflexivity. Qed.

Example dirname_of_bare_name : Path.dirname "usage.json" = "".
Proof. reflexivity. Qed.

Example join_with_empty_directory :
  Path.join "" "../public/usage.json" = "../public/usage.json".
Proof. reflexivity. Qed.

Example isoformat_sample :
  Datetime.isoformat sample_clock = "2026-11-04T17:12:03.004500".
Proof. reflexivity. Qed.

Example isoformat_whole_second :
  Datetime.isoformat (Datetime.mk_datetime 2026 1 2 3 4 5 0 eq_refl)
  = "2026-01-02T03:04:05".
Proof. reflexivity. Qed.

Example month_thirteen_is_no_timestamp :
  Datetime.parse_iso8601 "2026-13-04T17:12:03" = None.
Proof. reflexivity. Qed.

Example dict_set_replaces_in_place :
  Py.dict_set "a" (Py.VInt 3) [("a", Py.VInt 1); ("b", Py.VInt 2)]
  = [("a", Py.VInt 3); ("b", Py.VInt 2)].
Proof. reflexivity. Qed.

Example encode_item_openai :
  Json.encode_item ("openai", Py.VInt 900)
  = "  " +:+ String Json.quote "openai" +:+ String Json.quote ": 900".
Proof. reflexivity. Qed.

Example escape_control_and_backslash :
  Json.escape (String Json.newline "a\b") = "\na\\b".
Proof. reflexivity. Qed.

(** A whole run: openai over the threshold, the relay refusing the login. *)
Example run_with_bad_login :
  run world_bad_login fs_empty =
  (Ret tt,
   mk_state
     (written world_bad_login (assembled world_bad_login fs_empty) fs_empty)
     [Stdout "Fetching usage for openai...";
      Stdout "No API key found for anthropic";
      Stdout "No API key found for perplexity";
      Stdout "No API key found for gemini";
      Stdout "No API key found for huggingface";
      Stdout "Usage data updated.";
      Notify "High API Usage Alert: openai" "Your usage for openai has reached 900.";
      SmtpConnect "smtp.gmail.com" 465;
      SmtpLogin "ops@example.org" "app-password";
      SmtpQuit;
      Stdout "Failed to send email: (535, b'5.7.8 Username and Password not accepted')"]
     1 1).
Proof. vm_compute. reflexivity. Qed.

(** On an empty file system the run makes the directory and the file. *)
Example run_creates_directory :
  elements (dirs (fs (run world_one_alert fs_empty).2))
    = ["/srv/app/scripts/../public"] /\
  dom (files (fs (run world_one_alert fs_empty).2))
    = ({["/srv/app/scripts/../public/usage.json"]} : gset string).
Proof. split; vm_compute; reflexivity. Qed.

(** ** Strings and paths *)

Section StringFacts.

#[local] Arguments String.append !_ _ / : simpl nomatch.

Lemma append_nil_r (s : string) : s +:+ "" = s.
Proof. induction s as [|c s IH]; simpl; [reflexivity | by f_equal]. Qed.

Lemma append_assoc (a b c : string) : (a +:+ b) +:+ c = a +:+ (b +:+ c).
Proof. induction a as [|x a IH]; simpl; [reflexivity | by f_equal]. Qed.

Lemma append_cancel_l (a b c : string) : a +:+ b = a +:+ c -> b = c.
Proof.
  induction a as [|x a IH]; simpl; intros H; [exact H|].
  injection H as H. by apply IH.
Qed.

Lemma append_eq_nil (a b : string) : a +:+ b = "" -> a = "" /\ b = "".
Proof. destruct a; simpl; intros H; [by split | discriminate]. Qed.

(** *** Paths *)

Lemma head_app (a b : string) :
  Path.head b <> "" -> Path.head (a +:+ b) = a +:+ Path.head b.
Proof.
  intros Hb. induction a as [|c a IH]; simpl; [reflexivity|].
  rewrite IH. destruct (a +:+ Path.head b) eqn:E; [|reflexivity].
  apply append_eq_nil in E as [_ E]. contradiction.
Qed.

Lemma rstrip_sep_app (a b : string) :
  Path.rstrip_sep b <> "" -> Path.rstrip_sep (a +:+ b) = a +:+ Path.rstrip_sep b.
Proof.
  intros Hb. induction a as [|c a IH]; simpl; [reflexivity|].
  rewrite IH. destruct (a +:+ Path.rstrip_sep b) eqn:E; [|reflexivity].
  apply append_eq_nil in E as [_ E]. contradiction.
Qed.

(** The directory of [a/rel] when [rel] itself has a directory part that
    does not end in a separator. *)
Lemma dirname_app (a rel : string) :
  Path.rstrip_sep (Path.head rel) <> "" ->
  Path.dirname (a +:+ rel) = a +:+ Path.dirname rel.
Proof.
  intros Hrel. unfold Path.dirname.
  assert (Path.head rel <> "") as Hh.
  { intros E. rewrite E in Hrel. by apply Hrel. }
  rewrite head_app by exact Hh. rewrite rstrip_sep_app by exact Hrel.
  destruct (Path.rstrip_sep (Path.head rel)) eqn:E1; [contradiction|].
  destruct (a +:+ String a0 s) eqn:E2; [|reflexivity].
  apply append_eq_nil in E2 as [_ E2]. discriminate.
Qed.

(** The directory the script writes into: [public], beside the directory
    of the script. *)
Lemma dirname_output_path (w : world) :
  Path.dirname (output_path w) = Path.join (script_dir w) "../public".
Proof.
  unfold output_path, Path.join. simpl Path.startswith_sep. cbv iota.
  destruct (String.eqb (script_dir w) "" || Path.endswith_sep (script_dir w)).
  - by rewrite dirname_app.
  - change (script_dir w +:+ String Path.sep "../public/usage.json")
      with (script_dir w +:+ "/../public/usage.json").
    by rewrite dirname_app.
Qed.

Lemma join_public_nonempty (d rel : string) :
  rel <> "" -> Path.join d rel <> "".
Proof.
  intros Hrel. unfold Path.join.
  destruct (Path.startswith_sep rel); [exact Hrel|].
  destruct (String.eqb d "" || Path.endswith_sep d);
    intros [_ E]%append_eq_nil; [contradiction | discriminate].
Qed.

Lemma dirname_output_path_nonempty (w : world) :
  Path.dirname (output_path w) <> "".
Proof. rewrite dirname_output_path. by apply join_public_nonempty. Qed.

(** The output file is not its own directory. *)
Lemma output_path_not_dirname (w : world) :
  output_path w <> Path.dirname (output_path w).
Proof.
  rewrite dirname_output_path. unfold output_path, Path.join.
  simpl Path.startswith_sep. cbv iota.
  destruct (String.eqb (script_dir w) "" || Path.endswith_sep (script_dir w));
    intros E%append_cancel_l; discriminate.
Qed.

End StringFacts.

(** ** Dictionaries *)

Lemma dict_get_set_eq k v d : Py.dict_get k (Py.dict_set k v d) = Some v.
Proof.
  induction d as [|[k' v'] d IH]; simpl.
  - by rewrite decide_True.
  - destruct (decide (k' = k)) as [->|Hne]; simpl.
    + by rewrite decide_True.
    + by rewrite decide_False.
Qed.

Lemma dict_get_set_ne k k' v d :
  k <> k' -> Py.dict_get k' (Py.dict_set k v d) = Py.dict_get k' d.
Proof.
  intros Hne. induction d as [|[k0 v0] d IH]; simpl.
  - by rewrite decide_False.
  - destruct (decide (k0 = k)) as [->|Hne0]; simpl.
    + by rewrite !decide_False.
    + destruct (decide (k0 = k')); [reflexivity | exact IH].
Qed.

Lemma dict_keys_set_fresh k v d :
  k ∉ Py.dict_keys d -> Py.dict_keys (Py.dict_set k v d) = Py.dict_keys d ++ [k].
Proof.
  unfold Py.dict_keys. induction d as [|[k' v'] d IH]; simpl; intros Hk.
  - reflexivity.
  - apply not_elem_of_cons in Hk as [Hne Hk].
    rewrite decide_False by congruence. simpl. f_equal. by apply IH.
Qed.

Lemma dict_get_None k d : k ∉ Py.dict_keys d -> Py.dict_get k d = None.
Proof.
  unfold Py.dict_keys. induction d as [|[k' v'] d IH]; simpl; intros Hk.
  - reflexivity.
  - apply not_elem_of_cons in Hk as [Hne Hk].
    rewrite decide_False by congruence. by apply IH.
Qed.

(** With unique keys, a lookup finds exactly the entries of the list. *)
Lemma dict_get_elem_of k v d :
  NoDup (Py.dict_keys d) -> (k, v) ∈ d <-> Py.dict_get k d = Some v.
Proof.
  unfold Py.dict_keys. induction d as [|[k' v'] d IH]; simpl; intros Hnd.
  - split; [intros H; by apply elem_of_nil in H | discriminate].
  - apply NoDup_cons in Hnd as [Hk' Hnd].
    destruct (decide (k' = k)) as [->|Hne].
    + split.
      * intros [Heq|Hin]%elem_of_cons; [congruence|].
        exfalso. apply Hk'. apply list_elem_of_fmap. by exists (k, v).
      * intros [= ->]. apply elem_of_cons. by left.
    + rewrite elem_of_cons, <- (IH Hnd). split.
      * intros [Heq|Hin]; [congruence | exact Hin].
      * intros Hin. by right.
Qed.

(** ** Traces *)

Lemma notifications_app (a b : list event) :
  notifications (a ++ b) = notifications a ++ notifications b.
Proof.
  induction a as [|e a IH]; simpl; [reflexivity|].
  destruct e; simpl; by rewrite ?IH.
Qed.

Lemma smtp_commands_app (a b : list event) :
  smtp_commands (a ++ b) = smtp_commands a ++ smtp_commands b.
Proof. unfold smtp_commands. apply List.filter_app. Qed.

Lemma notifications_elem_of (tr : list event) subject body :
  (subject, body) ∈ notifications tr <-> Notify subject body ∈ tr.
Proof.
  induction tr as [|e tr IH]; simpl.
  - split; intros H; by apply elem_of_nil in H.
  - destruct e; rewrite ?elem_of_cons, IH;
      try (split; [intros H; by right | intros [H|H]; [discriminate | exact H]]).
    split; (intros [H|H]; [left; congruence | by right]).
Qed.

(** ** [send_email_notification] *)

(** The whole effect of one call: it always returns; it leaves the file
    system and the generator alone; without a full mail configuration it
    only logs the skip; with one it opens exactly one session and logs how
    the session ended. *)
Lemma send_email_notification_run (w : world) (subject body : string) (st : state) :
  send_email_notification w subject body st =
  (Ret tt,
   if mail_configured w then
     mk_state (fs st)
       (trace st ++ Notify subject body
          :: session_events w (sessions st) (alert_message w subject body))
       (draws st) (S (sessions st))
   else
     mk_state (fs st)
       (trace st ++ [Notify subject body;
                     Stdout "Email configuration missing. Skipping notification."])
       (draws st) (sessions st)).
Proof.
  unfold send_email_notification, mail_configured, os_environ_get.
  destruct (Py.all_truthy _); unfold bind at 1; simpl.
  - unfold try_except, with_SMTP_SSL, SMTP_SSL, try_finally, smtp_login,
      smtp_sendmail, smtp_exit, smtp_step, session_events, session_commands,
      session_error, bind, emit, print, emit, ret, raise; simpl.
    destruct (relay w (sessions st) AtConnect) eqn:Ec;
      destruct (relay w (sessions st) AtLogin) eqn:El;
      destruct (relay w (sessions st) AtSendmail) eqn:Es;
      destruct (relay w (sessions st) AtQuit) eqn:Eq;
      repeat (simpl; rewrite ?Ec, ?El, ?Es, ?Eq);
      rewrite <- ?app_assoc; reflexivity.
  - unfold print, emit; simpl. rewrite <- app_assoc. reflexivity.
Qed.

(** ** The first loop *)

Lemma logs_only_refl (st : state) : logs_only st st.
Proof.
  repeat split. exists []. simpl. by rewrite app_nil_r.
Qed.

Lemma logs_only_trans (st1 st2 st3 : state) :
  logs_only st1 st2 -> logs_only st2 st3 -> logs_only st1 st3.
Proof.
  intros (Hf1 & Hs1 & l1 & Ht1) (Hf2 & Hs2 & l2 & Ht2).
  repeat split; [congruence | congruence |].
  exists (l1 ++ l2). rewrite Ht2, Ht1, fmap_app. by rewrite app_assoc.
Qed.

Lemma notifications_stdout (lines : list string) :
  notifications (Stdout <$> lines) = [].
Proof. induction lines; simpl; auto. Qed.

Lemma smtp_commands_stdout (lines : list string) :
  smtp_commands (Stdout <$> lines) = [].
Proof. induction lines; simpl; auto. Qed.

Lemma logs_only_notifications (st st' : state) :
  logs_only st st' -> notifications (trace st') = notifications (trace st).
Proof.
  intros (_ & _ & l & ->).
  by rewrite notifications_app, notifications_stdout, app_nil_r.
Qed.

Lemma logs_only_smtp_commands (st st' : state) :
  logs_only st st' -> smtp_commands (trace st') = smtp_commands (trace st).
Proof.
  intros (_ & _ & l & ->).
  by rewrite smtp_commands_app, smtp_commands_stdout, app_nil_r.
Qed.

(** [random.randint(0, 1000)] stays within its bounds, whatever the
    generator delivers. *)
Lemma random_randint_range (w : world) (a b : Z) (st : state) :
  a <= b ->
  exists n st', random_randint w a b st = (Ret n, st') /\ a <= n <= b /\
    fs st' = fs st /\ sessions st' = sessions st /\ trace st' = trace st.
Proof.
  intros Hab. eexists _, _. split; [reflexivity|]. simpl.
  pose proof (Z.mod_pos_bound (entropy w (draws st)) (b - a + 1)) as Hm.
  repeat split; lia.
Qed.

(** One round: the provider gets a number between 0 and 1000, which is 0
    when it has no key; nothing but the log changes. *)
Lemma poll_run (w : world) (provider : string) (acc : Py.dict) (st : state) :
  exists n st',
    poll w provider acc st = (Ret (Py.dict_set provider (Py.VInt n) acc), st') /\
    logs_only st st' /\ 0 <= n <= 1000 /\
    (Py.truthy (environ w !! api_key_var provider) = false -> n = 0).
Proof.
  unfold poll, os_environ_get, api_key_var.
  destruct (Py.truthy _) eqn:Hkey.
  - unfold fetch_usage, bind, print, emit.
    set (st1 := mk_state _ _ _ _).
    destruct (random_randint_range w 0 1000 st1) as (n & st' & Hr & Hn & Hf & Hs & Ht);
      [lia|].
    exists n, st'. rewrite Hr. unfold ret. split; [reflexivity|].
    split; [|split; [exact Hn | discriminate]].
    repeat split; [by rewrite Hf | by rewrite Hs |].
    eexists [_]. rewrite Ht. reflexivity.
  - exists 0. eexists. unfold bind, print, emit, ret. split; [reflexivity|].
    split; [|split; [lia | reflexivity]].
    repeat split. eexists [_]. reflexivity.
Qed.

(** The loop over providers not yet in the mapping. *)
Lemma for_each_poll (w : world) (ps : list string) :
  forall (acc : Py.dict) (st : state),
    NoDup ps -> (forall p, p ∈ ps -> p ∉ Py.dict_keys acc) ->
    exists d st',
      for_each ps (poll w) acc st = (Ret d, st') /\
      logs_only st st' /\
      Py.dict_keys d = Py.dict_keys acc ++ ps /\
      (forall k, k ∉ ps -> Py.dict_get k d = Py.dict_get k acc) /\
      (forall p, p ∈ ps ->
         exists n, Py.dict_get p d = Some (Py.VInt n) /\ 0 <= n <= 1000 /\
           (Py.truthy (environ w !! api_key_var p) = false -> n = 0)).
Proof.
  induction ps as [|p ps IH]; intros acc st Hnd Hfresh.
  - exists acc, st. simpl. unfold ret. split; [reflexivity|].
    split; [apply logs_only_refl|]. split; [by rewrite app_nil_r|].
    split; [reflexivity|]. intros p Hp. by apply elem_of_nil in Hp.
  - apply NoDup_cons in Hnd as [Hp Hnd].
    destruct (poll_run w p acc st) as (n & st1 & Hpoll & Hlog1 & Hn & Hzero).
    assert (p ∉ Py.dict_keys acc) as Hpacc.
    { apply Hfresh. apply elem_of_cons. by left. }
    destruct (IH (Py.dict_set p (Py.VInt n) acc) st1 Hnd)
      as (d & st' & Hloop & Hlog2 & Hkeys & Hold & Hnew).
    { intros q Hq. rewrite dict_keys_set_fresh by exact Hpacc.
      intros [Hin|Hin%list_elem_of_singleton]%elem_of_app.
      - apply (Hfresh q); [apply elem_of_cons; by right | exact Hin].
      - subst q. contradiction. }
    exists d, st'. simpl. unfold bind at 1. rewrite Hpoll.
    split; [exact Hloop|]. split; [by eapply logs_only_trans|].
    split.
    { rewrite Hkeys, dict_keys_set_fresh by exact Hpacc.
      by rewrite <- app_assoc. }
    split.
    { intros k [Hne Hk]%not_elem_of_cons. rewrite Hold by exact Hk.
      apply dict_get_set_ne. congruence. }
    intros q [->|Hq]%elem_of_cons.
    + exists n. rewrite Hold by exact Hp. rewrite dict_get_set_eq. auto.
    + by apply Hnew.
Qed.

Lemma providers_NoDup : NoDup providers.
Proof. apply (bool_decide_unpack _). vm_compute. exact I. Qed.

Lemma last_updated_not_provider : "last_updated" ∉ providers.
Proof. apply (bool_decide_unpack _). vm_compute. exact I. Qed.

(** Lines 44-56 as a whole: the mapping always gets built, with the five
    providers and the timestamp as its keys, in this order. *)
Lemma assemble_run (w : world) (st : state) :
  exists d st',
    assemble w st = (Ret d, st') /\
    logs_only st st' /\
    Py.dict_keys d = providers ++ ["last_updated"] /\
    Py.dict_get "last_updated" d
      = Some (Py.VStr (Datetime.isoformat (clock w))) /\
    (forall p, p ∈ providers ->
       exists n, Py.dict_get p d = Some (Py.VInt n) /\ 0 <= n <= 1000 /\
         (Py.truthy (environ w !! api_key_var p) = false -> n = 0)).
Proof.
  destruct (for_each_poll w providers [] st providers_NoDup)
    as (d & st' & Hloop & Hlog & Hkeys & _ & Hnew).
  { intros p _ Hp. by apply elem_of_nil in Hp. }
  simpl in Hkeys.
  assert ("last_updated" ∉ Py.dict_keys d) as Hfresh.
  { rewrite Hkeys. apply last_updated_not_provider. }
  eexists _, st'. unfold assemble, bind at 1. rewrite Hloop.
  unfold datetime_now, bind, ret. split; [reflexivity|].
  split; [exact Hlog|].
  split; [by rewrite dict_keys_set_fresh, Hkeys|].
  split; [apply dict_get_set_eq|].
  intros p Hp. rewrite dict_get_set_ne; [by apply Hnew|].
  intros <-. by apply last_updated_not_provider.
Qed.

Lemma assembled_run (w : world) (f : filesystem) :
  exists st', assemble w (initial f) = (Ret (assembled w f), st') /\
    logs_only (initial f) st'.
Proof.
  destruct (assemble_run w (initial f)) as (d & st' & Hrun & Hlog & _).
  exists st'. unfold assembled. by rewrite Hrun.
Qed.

Lemma assembled_keys (w : world) (f : filesystem) :
  Py.dict_keys (assembled w f) = providers ++ ["last_updated"].
Proof.
  destruct (assemble_run w (initial f)) as (d & st' & Hrun & _ & Hkeys & _).
  unfold assembled. by rewrite Hrun.
Qed.

Lemma assembled_NoDup (w : world) (f : filesystem) :
  NoDup (Py.dict_keys (assembled w f)).
Proof.
  rewrite assembled_keys. apply (bool_decide_unpack _). vm_compute. exact I.
Qed.

(** ** Writing the file *)

Lemma elem_of_added_dir (d : string) (ds : gset string) : d ∈ {[d]} ∪ ds.
Proof. apply elem_of_union_l, elem_of_singleton. reflexivity. Qed.

Lemma not_elem_of_added_dir (p d : string) (ds : gset string) :
  p <> d -> p ∉ ds -> p ∉ {[d]} ∪ ds.
Proof.
  intros Hne Hnin [Hin%elem_of_singleton|Hin]%elem_of_union; contradiction.
Qed.

Lemma added_dir_present (d : string) (ds : gset string) :
  d ∈ ds -> {[d]} ∪ ds = ds.
Proof. intros Hin. apply subseteq_union_1_L, singleton_subseteq_l, Hin. Qed.

Lemma persist_writable (w : world) (d : Py.dict) (st : state) :
  writable w (fs st) ->
  persist w d st =
  (Ret tt,
   mk_state (written w d (fs st)) (trace st ++ [Stdout "Usage data updated."])
     (draws st) (sessions st)).
Proof.
  intros (Hdir & Hpd & Hpden).
  pose proof (dirname_output_path_nonempty w) as Hne.
  pose proof (output_path_not_dirname w) as Hneq.
  unfold persist, bind at 1, os_makedirs_exist_ok.
  destruct (String.eqb_spec (Path.dirname (output_path w)) ""); [contradiction|].
  assert (forall ds fl st0,
    fs st0 = mk_fs ds fl (denied (fs st)) ->
    Path.dirname (output_path w) ∈ ds -> output_path w ∉ ds ->
    (with_open_w (output_path w) (fun f => json_dump_indent2 d f) ;;
     print "Usage data updated.") st0 =
    (Ret tt, mk_state (mk_fs ds (<[output_path w := Json.dumps d]> fl)
                         (denied (fs st)))
               (trace st0 ++ [Stdout "Usage data updated."])
               (draws st0) (sessions st0))) as Hwrite.
  { intros ds fl st0 Hfs Hin Hnot.
    unfold bind at 1, with_open_w, bind at 1, open_w. rewrite Hfs. simpl.
    rewrite decide_False by exact Hnot.
    rewrite (bool_decide_eq_false_2 (Path.dirname (output_path w) ∉ ds))
      by (intros H; by apply H).
    rewrite andb_false_r. rewrite decide_False by exact Hpden.
    unfold bind, set_fs, ret, try_finally, json_dump_indent2, file_write,
      file_close, set_fs, ret, print, emit. simpl.
    rewrite lookup_insert_eq. simpl. by rewrite insert_insert_eq. }
  destruct (decide (Path.dirname (output_path w) ∈ dirs (fs st))) as [Hin|Hnin].
  - unfold ret. rewrite (Hwrite (dirs (fs st)) (files (fs st)) st);
      [|by destruct (fs st) | exact Hin | exact Hpd].
    unfold written. by rewrite added_dir_present.
  - destruct Hdir as [Hin|[Hfile Hden]]; [contradiction|].
    rewrite decide_False by (rewrite Hfile; by intros [? ?]).
    rewrite decide_False by exact Hden. unfold set_fs.
    erewrite Hwrite;
      [reflexivity | reflexivity | apply elem_of_added_dir
      | by apply not_elem_of_added_dir].
Qed.

(** When the file system refuses, [persist] raises before it writes or
    prints anything. *)
Lemma persist_not_writable (w : world) (d : Py.dict) (st : state) :
  ~ writable w (fs st) ->
  exists e st', persist w d st = (Raise e, st') /\
    files (fs st') = files (fs st) /\ trace st' = trace st /\
    sessions st' = sessions st.
Proof.
  intros Hnw.
  pose proof (dirname_output_path_nonempty w) as Hne.
  pose proof (output_path_not_dirname w) as Hneq.
  unfold persist, bind at 1, os_makedirs_exist_ok.
  destruct (String.eqb_spec (Path.dirname (output_path w)) ""); [contradiction|].
  assert (forall ds st0,
    fs st0 = mk_fs ds (files (fs st)) (denied (fs st)) ->
    (output_path w ∈ ds \/ output_path w ∈ denied (fs st)) ->
    exists e st',
      (with_open_w (output_path w) (fun f => json_dump_indent2 d f) ;;
       print "Usage data updated.") st0 = (Raise e, st') /\
      files (fs st') = files (fs st) /\ trace st' = trace st0 /\
      sessions st' = sessions st0) as Hrefuse.
  { intros ds st0 Hfs Hbad.
    unfold bind at 1, with_open_w, bind at 1, open_w. rewrite Hfs. simpl.
    destruct (decide (output_path w ∈ ds)).
    { eexists _, st0. unfold raise. rewrite Hfs. by repeat split. }
    destruct (negb _ && bool_decide _).
    { eexists _, st0. unfold raise. rewrite Hfs. by repeat split. }
    destruct Hbad as [Hbad|Hbad]; [contradiction|].
    rewrite decide_True by exact Hbad.
    eexists _, st0. unfold raise. rewrite Hfs. by repeat split. }
  assert (Path.dirname (output_path w) ∈ dirs (fs st) \/
          (files (fs st) !! Path.dirname (output_path w) = None /\
           Path.dirname (output_path w) ∉ denied (fs st)) ->
          output_path w ∈ dirs (fs st) \/ output_path w ∈ denied (fs st))
    as Hbad.
  { intros Hdir.
    destruct (decide (output_path w ∈ dirs (fs st))); [by left|].
    destruct (decide (output_path w ∈ denied (fs st))); [by right|].
    exfalso. apply Hnw. by repeat split. }
  destruct (decide (Path.dirname (output_path w) ∈ dirs (fs st))) as [Hin|Hnin].
  - unfold ret. apply (Hrefuse (dirs (fs st)) st); [by destruct (fs st)|].
    apply Hbad. by left.
  - destruct (decide (is_Some _)) as [Hsome|Hnone].
    { eexists _, st. unfold raise. by repeat split. }
    destruct (decide (_ ∈ denied (fs st))) as [Hden|Hnden].
    { eexists _, st. unfold raise. by repeat split. }
    unfold set_fs.
    edestruct (Hrefuse ({[Path.dirname (output_path w)]} ∪ dirs (fs st))
                 (mk_state (mk_fs ({[Path.dirname (output_path w)]} ∪ dirs (fs st))
                              (files (fs st)) (denied (fs st)))
                    (trace st) (draws st) (sessions st)))
      as (e & st' & Hr & Hfiles & Htrace & Hsess); [reflexivity| |].
    { destruct Hbad as [Hb|Hb]; [|left; by apply elem_of_union_r|by right].
      right. split; [|exact Hnden].
      destruct (files (fs st) !! _) eqn:E; [|reflexivity].
      exfalso. apply Hnone. by eexists. }
    exists e, st'. rewrite Hr. by repeat split.
Qed.

(** ** The second loop *)

Lemma notifications_session_events (w : world) (n : nat) (msg : message) :
  notifications (session_events w n msg) = [].
Proof.
  unfold session_events, session_commands.
  destruct (relay w n AtConnect), (relay w n AtLogin); reflexivity.
Qed.

Lemma alert_run (w : world) (kv : string * Py.value) (st : state) :
  alert w kv tt st =
  if over_threshold kv.2
  then send_email_notification w (alert_subject kv.1) (alert_body kv.1 kv.2) st
  else (Ret tt, st).
Proof.
  destruct kv as [k v]. unfold alert. simpl.
  destruct (over_threshold v); reflexivity.
Qed.

Lemma alerts_cons (kv : string * Py.value) (d : Py.dict) :
  alerts (kv :: d) =
  (if over_threshold kv.2 then [(alert_subject kv.1, alert_body kv.1 kv.2)] else [])
  ++ alerts d.
Proof. unfold alerts. simpl. by destruct (over_threshold kv.2). Qed.

(** The loop never raises and never touches the file system; it makes one
    notification attempt per entry over the threshold, in order; it opens
    one mail session per attempt when mail is configured and none
    otherwise. *)
Lemma check_thresholds_run (w : world) (d : Py.dict) :
  forall st : state,
    exists st',
      check_thresholds w d st = (Ret tt, st') /\
      fs st' = fs st /\
      notifications (trace st') = notifications (trace st) ++ alerts d /\
      sessions st' =
        (sessions st + if mail_configured w then length (alerts d) else 0)%nat /\
      (mail_configured w = false ->
       smtp_commands (trace st') = smtp_commands (trace st)).
Proof.
  unfold check_thresholds.
  induction d as [|kv d IH]; intros st.
  - exists st. simpl. unfold ret. rewrite app_nil_r.
    repeat split. by destruct (mail_configured w); rewrite Nat.add_0_r.
  - simpl. unfold bind at 1. rewrite alert_run, alerts_cons.
    destruct (over_threshold kv.2).
    + rewrite send_email_notification_run.
      match goal with |- context [for_each d (alert w) tt ?s] =>
        destruct (IH s) as (st' & Hrun & Hfs & Hnot & Hsess & Hsmtp) end.
      exists st'. split; [exact Hrun|].
      destruct (mail_configured w) eqn:Hcfg; simpl in *.
      * rewrite Hfs, Hnot, Hsess, notifications_app. simpl.
        rewrite notifications_session_events, <- app_assoc.
        repeat split; [lia | discriminate].
      * rewrite Hfs, Hnot, Hsess, notifications_app. simpl.
        rewrite <- app_assoc. repeat split.
        intros _. rewrite Hsmtp by reflexivity.
        rewrite smtp_commands_app. simpl. by rewrite app_nil_r.
    + destruct (IH st) as (st' & Hrun & Hfs & Hnot & Hsess & Hsmtp).
      exists st'. by repeat split.
Qed.

(** ** Counting the attempts for one provider *)

Lemma alert_subject_inj (p q : string) : alert_subject p = alert_subject q -> p = q.
Proof. unfold alert_subject. apply append_cancel_l. Qed.

Lemma attempts_for_alerts (p : string) (d : Py.dict) (tr : list event) :
  NoDup (Py.dict_keys d) ->
  notifications tr = alerts d ->
  attempts_for p tr =
    match Py.dict_get p d with
    | Some v => if over_threshold v then 1%nat else 0%nat
    | None => 0%nat
    end.
Proof.
  unfold attempts_for. intros Hnd ->. clear tr.
  induction d as [|[k v] d IH]; [reflexivity|].
  change (Py.dict_keys ((k, v) :: d)) with (k :: Py.dict_keys d) in Hnd.
  apply NoDup_cons in Hnd as [Hk Hnd]. specialize (IH Hnd).
  rewrite alerts_cons, List.filter_app, length_app, IH.
  cbn [Py.dict_get fst snd].
  destruct (decide (k = p)) as [->|Hne].
  - rewrite dict_get_None by exact Hk.
    destruct (over_threshold v); cbn [List.filter fst]; [|reflexivity].
    by rewrite String.eqb_refl.
  - destruct (over_threshold v); cbn [List.filter fst]; [|reflexivity].
    destruct (String.eqb_spec (alert_subject k) (alert_subject p)) as [E|_];
      [|reflexivity].
    apply alert_subject_inj in E. contradiction.
Qed.

(** ** The whole run *)

(** A run on a file system that lets it write: it completes, the file
    holds the serialized mapping, and the notification attempts are the
    alerts the mapping calls for. *)
Lemma run_writable (w : world) (f : filesystem) :
  writable w f ->
  exists st',
    run w f = (Ret tt, st') /\
    fs st' = written w (assembled w f) f /\
    notifications (trace st') = alerts (assembled w f) /\
    sessions st' =
      (if mail_configured w then length (alerts (assembled w f)) else 0)%nat /\
    (mail_configured w = false -> smtp_commands (trace st') = []).
Proof.
  intros Hw. unfold run, main.
  destruct (assembled_run w f) as (st1 & Hasm & Hlog).
  unfold bind at 1. rewrite Hasm.
  unfold bind at 1. rewrite persist_writable
    by (destruct Hlog as (-> & _); exact Hw).
  match goal with |- context [check_thresholds w ?d ?s] =>
    destruct (check_thresholds_run w d s) as (st' & Hrun & Hfs & Hnot & Hsess & Hsmtp)
  end.
  exists st'. split; [exact Hrun|]. simpl in *.
  pose proof (logs_only_notifications _ _ Hlog) as Hn1.
  pose proof (logs_only_smtp_commands _ _ Hlog) as Hs1.
  destruct Hlog as (Hf1 & Hse1 & _). simpl in *.
  rewrite Hfs, Hnot, Hsess, Hf1, Hse1, notifications_app, Hn1. simpl.
  repeat split.
  intros Hcfg. rewrite Hsmtp by exact Hcfg.
  rewrite smtp_commands_app, Hs1. reflexivity.
Qed.

(** A run on a file system that refuses: it is aborted by the exception
    of the write, before the threshold loop. *)
Lemma run_not_writable (w : world) (f : filesystem) :
  ~ writable w f ->
  exists e st',
    run w f = (Raise e, st') /\
    files (fs st') = files f /\
    notifications (trace st') = [] /\
    smtp_commands (trace st') = [].
Proof.
  intros Hw. unfold run, main.
  destruct (assembled_run w f) as (st1 & Hasm & Hlog).
  unfold bind at 1. rewrite Hasm.
  destruct (persist_not_writable w (assembled w f) st1)
    as (e & st' & Hp & Hfiles & Htrace & _).
  { destruct Hlog as (-> & _). exact Hw. }
  exists e, st'. unfold bind. rewrite Hp. split; [reflexivity|].
  pose proof (logs_only_notifications _ _ Hlog) as Hn1.
  pose proof (logs_only_smtp_commands _ _ Hlog) as Hs1.
  destruct Hlog as (Hf1 & _). rewrite Hfiles, Htrace, Hf1, Hn1, Hs1.
  by repeat split.
Qed.

Lemma writable_dec (w : world) (f : filesystem) : Decision (writable w f).
Proof. unfold writable. simpl. apply _. Defined.

(** A run completes exactly when the file system lets it write. *)
Lemma run_completes_iff (w : world) (f : filesystem) :
  (run w f).1 = Ret tt <-> writable w f.
Proof.
  split.
  - intros Hret. destruct (writable_dec w f) as [Hw|Hnw]; [exact Hw|].
    destruct (run_not_writable w f Hnw) as (e & st' & Hrun & _).
    rewrite Hrun in Hret. discriminate.
  - intros Hw. destruct (run_writable w f Hw) as (st' & Hrun & _).
    by rewrite Hrun.
Qed.

(** ** Timestamps *)

Section TimestampFacts.

#[local] Arguments String.append !_ _ / : simpl nomatch.

Lemma digit_val_digit (n : Z) :
  0 <= n < 10 -> Datetime.digit_val (Datetime.digit n) = Some n.
Proof.
  intros Hn. rewrite <- (Z2Nat.id n) by lia.
  assert (Z.to_nat n < 10)%nat as Hk by lia.
  revert Hk. generalize (Z.to_nat n). intros k Hk.
  do 10 (destruct k as [|k]; [reflexivity|]). lia.
Qed.

(** Reading [w] digits off the front of a number printed in width [w]. *)
Lemma take_digits_zfill (w : nat) :
  forall (k : nat) (n acc : Z) (rest : string),
    0 <= n < 10 ^ Z.of_nat w ->
    Datetime.take_digits (w + k) acc (Datetime.zfill w n +:+ rest)
    = Datetime.take_digits k (acc * 10 ^ Z.of_nat w + n) rest.
Proof.
  induction w as [|w IH]; intros k n acc rest Hn.
  - change (Z.of_nat 0) with 0 in *. rewrite Z.pow_0_r in *.
    cbn [Datetime.zfill Nat.add String.append]. f_equal. lia.
  - rewrite Nat2Z.inj_succ, Z.pow_succ_r in Hn by lia.
    change (Datetime.zfill (S w) n)
      with (Datetime.zfill w (n / 10)
            +:+ String (Datetime.digit (n mod 10)) EmptyString).
    rewrite append_assoc.
    replace (S w + k)%nat with (w + S k)%nat by lia.
    rewrite IH by (split; [apply Z.div_pos; lia | apply Z.div_lt_upper_bound; lia]).
    cbn [String.append Datetime.take_digits].
    rewrite digit_val_digit by (apply Z.mod_pos_bound; lia).
    f_equal. rewrite Nat2Z.inj_succ, Z.pow_succ_r by lia.
    pose proof (Z.div_mod n 10). lia.
Qed.

Lemma take_digits_zfill_all (w : nat) (n : Z) (rest : string) :
  0 <= n < 10 ^ Z.of_nat w ->
  Datetime.take_digits w 0 (Datetime.zfill w n +:+ rest) = Some (n, rest).
Proof.
  intros Hn. rewrite <- (Nat.add_0_r w) at 1.
  rewrite take_digits_zfill by exact Hn. reflexivity.
Qed.

Lemma days_in_month_le (y m : Z) : Datetime.days_in_month y m <= 31.
Proof.
  unfold Datetime.days_in_month.
  repeat match goal with |- context [if ?b then _ else _] => destruct b end; lia.
Qed.

Lemma fields_ok_bounds (y mo d h mi s us : Z) :
  Datetime.fields_ok y mo d h mi s us = true ->
  0 <= y < 10 ^ 4 /\ 0 <= mo < 10 ^ 2 /\ 0 <= d < 10 ^ 2 /\ 0 <= h < 10 ^ 2 /\
  0 <= mi < 10 ^ 2 /\ 0 <= s < 10 ^ 2 /\ 0 <= us < 10 ^ 6.
Proof.
  unfold Datetime.fields_ok. rewrite !andb_true_iff, !Z.leb_le, !Z.ltb_lt.
  pose proof (days_in_month_le y mo). lia.
Qed.

(** A timestamp printed by [isoformat] reads back as the fields it was
    printed from. *)
Lemma parse_isoformat (dt : Datetime.datetime) :
  Datetime.parse_iso8601 (Datetime.isoformat dt)
  = Some (Datetime.year dt, Datetime.month dt, Datetime.day dt,
          Datetime.hour dt, Datetime.minute dt, Datetime.second dt,
          Datetime.microsecond dt).
Proof.
  destruct dt as [y mo d h mi s us Hok].
  destruct (fields_ok_bounds _ _ _ _ _ _ _ Hok)
    as (Hy & Hmo & Hd & Hh & Hmi & Hs & Hus).
  unfold Datetime.parse_iso8601, Datetime.isoformat. cbn [Datetime.year
    Datetime.month Datetime.day Datetime.hour Datetime.minute Datetime.second
    Datetime.microsecond].
  rewrite (take_digits_zfill_all 4) by exact Hy. next_field.
  rewrite (take_digits_zfill_all 2) by exact Hmo. next_field.
  rewrite (take_digits_zfill_all 2) by exact Hd. next_field.
  rewrite (take_digits_zfill_all 2) by exact Hh. next_field.
  rewrite (take_digits_zfill_all 2) by exact Hmi. next_field.
  rewrite (take_digits_zfill_all 2) by exact Hs. next_field.
  destruct (Z.eqb_spec us 0) as [->|Hnz]; next_field.
  - by rewrite Hok.
  - rewrite <- (append_nil_r (Datetime.zfill 6 us)).
    rewrite (take_digits_zfill_all 6) by exact Hus. next_field.
    by rewrite Hok.
Qed.

Lemma isoformat_is_iso8601 (dt : Datetime.datetime) :
  Datetime.is_iso8601 (Datetime.isoformat dt).
Proof. unfold Datetime.is_iso8601. rewrite parse_isoformat. by eexists. Qed.

(** ** The text of the file *)

Lemma concat_contains (sep x : string) (l : list string) :
  x ∈ l -> contains x (String.concat sep l).
Proof.
  induction l as [|y l IH]; intros Hin; [by apply elem_of_nil in Hin|].
  apply elem_of_cons in Hin as [->|Hin].
  - destruct l as [|z l].
    + exists "", "". simpl. by rewrite append_nil_r.
    + exists "", (sep +:+ String.concat sep (z :: l)). reflexivity.
  - destruct (IH Hin) as (before & after & Heq).
    destruct l as [|z l]; [by apply elem_of_nil in Hin|].
    exists (y +:+ sep +:+ before), after.
    change (String.concat sep (y :: z :: l))
      with (y +:+ sep +:+ String.concat sep (z :: l)).
    rewrite Heq. by rewrite !append_assoc.
Qed.

(** Every entry of the mapping is a line of the text written. *)
Lemma dumps_contains (kv : string * Py.value) (d : Py.dict) :
  kv ∈ d -> contains (Json.encode_item kv) (Json.dumps d).
Proof.
  intros Hin.
  destruct (concat_contains (String "," (String Json.newline EmptyString))
              (Json.encode_item kv) (Json.encode_item <$> d))
    as (before & after & Heq).
  { apply list_elem_of_fmap. by exists kv. }
  destruct d as [|kv0 d]; [by apply elem_of_nil in Hin|].
  unfold Json.dumps. rewrite Heq.
  exists (String "{" (String Json.newline EmptyString) +:+ before),
         (after +:+ String Json.newline "}").
  by rewrite !append_assoc.
Qed.

End TimestampFacts.

(** * The claims *)

Lemma unset_or_empty_truthy (w : world) (var : string) :
  unset_or_empty w var -> Py.truthy (environ w !! var) = false.
Proof. by intros [-> | ->]. Qed.

Lemma mail_configured_false (w : world) :
  unset_or_empty w "EMAIL_SENDER" \/ unset_or_empty w "EMAIL_PASSWORD" \/
  unset_or_empty w "EMAIL_RECEIVER" ->
  mail_configured w = false.
Proof.
  unfold mail_configured, Py.all_truthy. cbn [forallb].
  intros [H | [H | H]]; apply unset_or_empty_truthy in H; rewrite H;
    rewrite ?andb_false_r; reflexivity.
Qed.

Lemma skipped_notification (w : world) (subject body : string) (st : state) :
  mail_configured w = false ->
  send_email_notification w subject body st =
    (Ret tt,
     mk_state (fs st)
       (trace st ++ [Notify subject body;
                     Stdout "Email configuration missing. Skipping notification."])
       (draws st) (sessions st)).
Proof. intros Hcfg. by rewrite send_email_notification_run, Hcfg. Qed.

Lemma alerts_elem_of (d : Py.dict) (subject body : string) :
  (subject, body) ∈ alerts d ->
  exists k v, (k, v) ∈ d /\ over_threshold v = true /\ subject = alert_subject k.
Proof.
  unfold alerts. intros ([k v] & [= -> ->] & Hin)%list_elem_of_fmap.
  apply list_elem_of_In, List.filter_In in Hin as [Hin Hover].
  exists k, v. by rewrite list_elem_of_In.
Qed.

Lemma writable_written (w : world) (d : Py.dict) (f : filesystem) :
  writable w f -> writable w (written w d f).
Proof.
  intros (_ & Hpd & Hpden). pose proof (output_path_not_dirname w).
  unfold writable, written. simpl.
  repeat split;
    [left; apply elem_of_added_dir | by apply not_elem_of_added_dir | exact Hpden].
Qed.

(** The values of the assembled mapping, by kind. *)
Lemma assembled_values (w : world) (f : filesystem) :
  NoDup (Py.dict_keys (assembled w f)) /\
  (forall p, p ∈ providers ->
     exists n, Py.dict_get p (assembled w f) = Some (Py.VInt n)) /\
  Py.dict_get "last_updated" (assembled w f)
    = Some (Py.VStr (Datetime.isoformat (clock w))).
Proof.
  split; [apply assembled_NoDup|].
  destruct (assemble_run w (initial f)) as (d & st1 & Hasm & _ & _ & Hts & Hprov).
  unfold assembled. rewrite Hasm. split; [|exact Hts].
  intros p Hp. destruct (Hprov p Hp) as (n & Hn & _). by exists n.
Qed.

(** C1 (as amended).  In a run that is not aborted by an exception, every
    entry of the assembled mapping with an integer value above 800 gets
    exactly one notification attempt, and every entry with an integer value
    of at most 800 gets none. *)
Theorem notification_per_breach (w : world) (f : filesystem) (p : string) (n : Z) :
  (run w f).1 = Ret tt ->
  Py.dict_get p (assembled w f) = Some (Py.VInt n) ->
  attempts_for p (trace (run w f).2) = if n >? 800 then 1%nat else 0%nat.
Proof.
  intros Hdone%run_completes_iff Hget.
  destruct (run_writable w f Hdone) as (st' & Hrun & _ & Hnot & _).
  rewrite Hrun. simpl.
  rewrite (attempts_for_alerts p (assembled w f))
    by (apply assembled_NoDup || exact Hnot).
  rewrite Hget. reflexivity.
Qed.

Lemma notification_per_breach_witness :
  (run world_one_alert fs_empty).1 = Ret tt /\
  Py.dict_get "openai" (assembled world_one_alert fs_empty) = Some (Py.VInt 900) /\
  attempts_for "openai" (trace (run world_one_alert fs_empty).2) = 1%nat.
Proof.
  split; [vm_compute; reflexivity|]. split; [vm_compute; reflexivity|].
  apply (notification_per_breach world_one_alert fs_empty "openai" 900);
    vm_compute; reflexivity.
Defined.

(** C1 as stated fails: where a regular file stands in the place of the
    output directory the run is aborted by [os.makedirs], and the entry of
    openai, 900, gets no notification attempt. *)
Lemma aborted_run_sends_nothing :
  (run world_one_alert fs_blocked).1
    = Raise (FileExistsError "/srv/app/scripts/../public") /\
  Py.dict_get "openai" (assembled world_one_alert fs_blocked) = Some (Py.VInt 900) /\
  attempts_for "openai" (trace (run world_one_alert fs_blocked).2) = 0%nat.
Proof. repeat split; vm_compute; reflexivity. Qed.

(** A timestamp printed by [isoformat] has no character that JSON
    escapes: it stands in the file as it is. *)
Section EscapeFacts.

#[local] Arguments String.append !_ _ / : simpl nomatch.

Lemma escape_app (a b : string) :
  Json.escape (a +:+ b) = Json.escape a +:+ Json.escape b.
Proof.
  induction a as [|c a IH]; [reflexivity|].
  change (Json.escape (String c a +:+ b))
    with (Json.escape_char c +:+ Json.escape (a +:+ b)).
  change (Json.escape (String c a)) with (Json.escape_char c +:+ Json.escape a).
  by rewrite IH, append_assoc.
Qed.

Lemma escape_digit (n : Z) :
  Json.escape_char (Datetime.digit (n mod 10))
  = String (Datetime.digit (n mod 10)) EmptyString.
Proof.
  pose proof (Z.mod_pos_bound n 10) as Hn.
  generalize dependent (n mod 10). intros d Hd.
  rewrite <- (Z2Nat.id d) by lia.
  assert (Z.to_nat d < 10)%nat as Hk by lia.
  revert Hk. generalize (Z.to_nat d). intros k Hk.
  do 10 (destruct k as [|k]; [reflexivity|]). lia.
Qed.

Lemma escape_zfill (w : nat) :
  forall n : Z, Json.escape (Datetime.zfill w n) = Datetime.zfill w n.
Proof.
  induction w as [|w IH]; intros n; [reflexivity|].
  change (Datetime.zfill (S w) n)
    with (Datetime.zfill w (n / 10)
          +:+ String (Datetime.digit (n mod 10)) EmptyString).
  rewrite escape_app, IH. f_equal.
  change (Json.escape (String (Datetime.digit (n mod 10)) EmptyString))
    with (Json.escape_char (Datetime.digit (n mod 10)) +:+ EmptyString).
  by rewrite escape_digit.
Qed.

Lemma escape_isoformat (dt : Datetime.datetime) :
  Json.escape (Datetime.isoformat dt) = Datetime.isoformat dt.
Proof.
  unfold Datetime.isoformat.
  rewrite !escape_app, !escape_zfill.
  destruct (Datetime.microsecond dt =? 0); [reflexivity|].
  by rewrite escape_app, escape_zfill.
Qed.

End EscapeFacts.

(** The text [json.dump] writes for a mapping of the script's shape. *)
Lemma dumps_expected_text (n1 n2 n3 n4 n5 : Z) (dt : Datetime.datetime) :
  Json.dumps
    [("openai", Py.VInt n1); ("anthropic", Py.VInt n2); ("perplexity", Py.VInt n3);
     ("gemini", Py.VInt n4); ("huggingface", Py.VInt n5);
     ("last_updated", Py.VStr (Datetime.isoformat dt))]
  = expected_text n1 n2 n3 n4 n5 (Datetime.isoformat dt).
Proof.
  unfold Json.dumps, expected_text, quoted, Json.encode_item, Json.encode_value,
    Json.encode_string.
  cbn [fmap list_fmap String.concat fst snd].
  rewrite escape_isoformat.
  change (Json.escape "openai") with "openai".
  change (Json.escape "anthropic") with "anthropic".
  change (Json.escape "perplexity") with "perplexity".
  change (Json.escape "gemini") with "gemini".
  change (Json.escape "huggingface") with "huggingface".
  change (Json.escape "last_updated") with "last_updated".
  generalize (Py.str_int n1), (Py.str_int n2), (Py.str_int n3), (Py.str_int n4),
    (Py.str_int n5), (Datetime.isoformat dt).
  intros s1 s2 s3 s4 s5 ts.
  rewrite !append_assoc. reflexivity.
Qed.

(** C2 (as amended).  After every run that is not aborted by an
    exception, the assembled mapping has exactly the keys openai,
    anthropic, perplexity, gemini, huggingface and last_updated, each once
    and in this order, with an integer for each provider and an ISO-8601
    timestamp string for last_updated, and the output file holds its
    serialization: the text made of one line per key, with no other
    key. *)
Theorem serialized_mapping_shape (w : world) (f : filesystem) :
  (run w f).1 = Ret tt ->
  exists (n1 n2 n3 n4 n5 : Z) (ts : string),
    assembled w f
      = [("openai", Py.VInt n1); ("anthropic", Py.VInt n2);
         ("perplexity", Py.VInt n3); ("gemini", Py.VInt n4);
         ("huggingface", Py.VInt n5); ("last_updated", Py.VStr ts)] /\
    Datetime.is_iso8601 ts /\
    files (fs (run w f).2) !! output_path w
      = Some (expected_text n1 n2 n3 n4 n5 ts).
Proof.
  intros Hdone%run_completes_iff.
  destruct (run_writable w f Hdone) as (st' & Hrun & Hfs & _).
  destruct (assembled_values w f) as (_ & Hprov & Hts).
  pose proof (assembled_keys w f) as Hkeys.
  rewrite Hrun. cbn [snd]. rewrite Hfs. unfold written. cbn [files].
  rewrite lookup_insert_eq.
  destruct (Hprov "openai") as (n1 & H1); [in_list|].
  destruct (Hprov "anthropic") as (n2 & H2); [in_list|].
  destruct (Hprov "perplexity") as (n3 & H3); [in_list|].
  destruct (Hprov "gemini") as (n4 & H4); [in_list|].
  destruct (Hprov "huggingface") as (n5 & H5); [in_list|].
  exists n1, n2, n3, n4, n5, (Datetime.isoformat (clock w)).
  assert (assembled w f
          = [("openai", Py.VInt n1); ("anthropic", Py.VInt n2);
             ("perplexity", Py.VInt n3); ("gemini", Py.VInt n4);
             ("huggingface", Py.VInt n5);
             ("last_updated", Py.VStr (Datetime.isoformat (clock w)))]) as Hd.
  { destruct (assembled w f) as [|[k1 v1] [|[k2 v2] [|[k3 v3] [|[k4 v4]
      [|[k5 v5] [|[k6 v6] [|? ?]]]]]]]; try discriminate Hkeys.
    injection Hkeys as -> -> -> -> -> ->.
    cbn in H1, H2, H3, H4, H5, Hts.
    injection H1 as ->. injection H2 as ->. injection H3 as ->.
    injection H4 as ->. injection H5 as ->. injection Hts as ->.
    reflexivity. }
  rewrite Hd. split; [reflexivity|].
  split; [apply isoformat_is_iso8601|].
  by rewrite dumps_expected_text.
Qed.

Lemma serialized_mapping_shape_witness :
  exists (n1 n2 n3 n4 n5 : Z) (ts : string),
    assembled world_two_alerts fs_stale
      = [("openai", Py.VInt n1); ("anthropic", Py.VInt n2);
         ("perplexity", Py.VInt n3); ("gemini", Py.VInt n4);
         ("huggingface", Py.VInt n5); ("last_updated", Py.VStr ts)] /\
    Datetime.is_iso8601 ts /\
    files (fs (run world_two_alerts fs_stale).2) !! output_path world_two_alerts
      = Some (expected_text n1 n2 n3 n4 n5 ts).
Proof.
  apply (serialized_mapping_shape world_two_alerts fs_stale).
  vm_compute. reflexivity.
Defined.

(** C2 as stated fails: where a regular file stands in the place of the
    output directory the run is aborted by [os.makedirs] before anything
    is serialized, and after the run there is no output file, hence no
    serialized mapping with these keys. *)
Lemma aborted_run_leaves_no_output :
  (run world_one_alert fs_blocked).1
    = Raise (FileExistsError "/srv/app/scripts/../public") /\
  files (fs (run world_one_alert fs_blocked).2) !! output_path world_one_alert
    = None.
Proof. split; vm_compute; reflexivity. Qed.

(** C3.  A provider of the list whose key variable is unset (or empty) is
    recorded with usage 0, and the mapping still gets all its keys: the
    loop goes on to the remaining providers. *)
Theorem missing_key_gives_zero (w : world) (f : filesystem) (p : string) :
  p ∈ providers ->
  unset_or_empty w (api_key_var p) ->
  Py.dict_get p (assembled w f) = Some (Py.VInt 0) /\
  Py.dict_keys (assembled w f) = providers ++ ["last_updated"].
Proof.
  intros Hp Hkey%unset_or_empty_truthy.
  split; [|apply assembled_keys].
  destruct (assemble_run w (initial f)) as (d & st1 & Hasm & _ & _ & _ & Hprov).
  unfold assembled. rewrite Hasm.
  destruct (Hprov p Hp) as (n & Hn & _ & Hzero).
  by rewrite Hn, (Hzero Hkey).
Qed.

Lemma missing_key_gives_zero_witness :
  Py.dict_get "anthropic" (assembled world_one_alert fs_empty) = Some (Py.VInt 0) /\
  Py.dict_keys (assembled world_one_alert fs_empty) = providers ++ ["last_updated"].
Proof.
  apply (missing_key_gives_zero world_one_alert fs_empty "anthropic").
  - apply (bool_decide_unpack _). vm_compute. exact I.
  - left. vm_compute. reflexivity.
Defined.

(** C4.  When one of EMAIL_SENDER, EMAIL_PASSWORD, EMAIL_RECEIVER is
    absent, [send_email_notification] returns normally having printed the
    skip and nothing else: no session with the relay is opened and no
    command is sent to it. *)
Theorem absent_mail_setting_skips (w : world) (subject body : string) (st : state) :
  environ w !! "EMAIL_SENDER" = None \/ environ w !! "EMAIL_PASSWORD" = None \/
  environ w !! "EMAIL_RECEIVER" = None ->
  exists st',
    send_email_notification w subject body st = (Ret tt, st') /\
    trace st' = trace st ++
      [Notify subject body;
       Stdout "Email configuration missing. Skipping notification."] /\
    smtp_commands (trace st') = smtp_commands (trace st) /\
    sessions st' = sessions st /\ fs st' = fs st.
Proof.
  intros Habsent.
  assert (mail_configured w = false) as Hcfg.
  { apply mail_configured_false. unfold unset_or_empty. tauto. }
  eexists. split; [by apply skipped_notification|]. simpl.
  split; [reflexivity|]. split; [|by split].
  rewrite smtp_commands_app. simpl. by rewrite app_nil_r.
Qed.

Lemma absent_mail_setting_skips_witness :
  exists st',
    send_email_notification world_no_receiver "subject" "body" (initial fs_empty)
      = (Ret tt, st') /\
    trace st' = trace (initial fs_empty) ++
      [Notify "subject" "body";
       Stdout "Email configuration missing. Skipping notification."] /\
    smtp_commands (trace st') = smtp_commands (trace (initial fs_empty)) /\
    sessions st' = sessions (initial fs_empty) /\ fs st' = fs (initial fs_empty).
Proof.
  apply (absent_mail_setting_skips world_no_receiver "subject" "body"
           (initial fs_empty)).
  right. right. vm_compute. reflexivity.
Defined.

(** A session in which some stage fails ends with an error. *)
Lemma session_error_of_failure (w : world) (n : nat) (stage : smtp_stage) :
  is_Some (relay w n stage) -> is_Some (session_error w n).
Proof.
  unfold session_error. intros Hfail.
  destruct (relay w n AtConnect) eqn:Ec; [by eexists|].
  destruct (relay w n AtQuit) eqn:Eq; [by eexists|].
  destruct (relay w n AtLogin) eqn:El; [by eexists|].
  destruct stage; rewrite ?Ec, ?Eq, ?El in Hfail; try exact Hfail;
    by destruct Hfail.
Qed.

(** C5.  When the relay fails a stage of the session (connect, login,
    sendmail or the closing quit), the call still returns normally, its
    last act being the log line with the error that left the session; the
    file system is as before; and the threshold loop, resumed on any
    remaining entries, runs to its end, attempts every alert these entries
    call for and leaves the file system alone. *)
Theorem mail_failure_is_contained
    (w : world) (subject body : string) (st : state) (stage : smtp_stage) :
  mail_configured w = true ->
  is_Some (relay w (sessions st) stage) ->
  exists st' why,
    send_email_notification w subject body st = (Ret tt, st') /\
    session_error w (sessions st) = Some why /\
    trace st' = trace st ++ Notify subject body
      :: session_commands w (sessions st) (alert_message w subject body)
      ++ [Stdout ("Failed to send email: " +:+ why)] /\
    fs st' = fs st /\
    forall rest : Py.dict,
      exists st'',
        check_thresholds w rest st' = (Ret tt, st'') /\
        fs st'' = fs st /\
        notifications (trace st'') = notifications (trace st') ++ alerts rest.
Proof.
  intros Hcfg [why Herr]%session_error_of_failure.
  rewrite send_email_notification_run, Hcfg.
  eexists _, why. split; [reflexivity|]. split; [exact Herr|]. simpl.
  split; [unfold session_events; by rewrite Herr|].
  split; [reflexivity|]. intros rest.
  match goal with |- context [check_thresholds w rest ?s] =>
    destruct (check_thresholds_run w rest s) as (st'' & Hrun & Hfs & Hnot & _)
  end.
  exists st''. by repeat split.
Qed.

Lemma mail_failure_is_contained_witness :
  exists st' why,
    send_email_notification world_bad_login "subject" "body" (initial fs_stale)
      = (Ret tt, st') /\
    session_error world_bad_login (sessions (initial fs_stale)) = Some why /\
    trace st' = trace (initial fs_stale) ++ Notify "subject" "body"
      :: session_commands world_bad_login (sessions (initial fs_stale))
           (alert_message world_bad_login "subject" "body")
      ++ [Stdout ("Failed to send email: " +:+ why)] /\
    fs st' = fs (initial fs_stale) /\
    forall rest : Py.dict,
      exists st'',
        check_thresholds world_bad_login rest st' = (Ret tt, st'') /\
        fs st'' = fs (initial fs_stale) /\
        notifications (trace st'') = notifications (trace st') ++ alerts rest.
Proof.
  apply (mail_failure_is_contained world_bad_login "subject" "body"
           (initial fs_stale) AtLogin).
  - vm_compute. reflexivity.
  - eexists. reflexivity.
Defined.

(** C6.  On a file system that lets it write, [persist] makes the parent
    directory of the output path exist, leaves every other file alone, and
    leaves in the output file the serialization of the mapping and nothing
    else, whatever the file held before; persisting again replaces that
    text by the new one. *)
Theorem persist_overwrites (w : world) (d : Py.dict) (st : state) :
  writable w (fs st) ->
  exists st',
    persist w d st = (Ret tt, st') /\
    files (fs st') !! output_path w = Some (Json.dumps d) /\
    Path.dirname (output_path w) ∈ dirs (fs st') /\
    (forall p, p <> output_path w -> files (fs st') !! p = files (fs st) !! p) /\
    forall d2 : Py.dict,
      exists st'',
        persist w d2 st' = (Ret tt, st'') /\
        files (fs st'') !! output_path w = Some (Json.dumps d2).
Proof.
  intros Hw. eexists. split; [by apply persist_writable|]. simpl.
  split; [apply lookup_insert_eq|].
  split; [apply elem_of_added_dir|].
  split; [intros p Hp; by apply lookup_insert_ne|].
  intros d2. eexists. split.
  - apply persist_writable. simpl. by apply writable_written.
  - simpl. apply lookup_insert_eq.
Qed.

Lemma persist_overwrites_witness :
  files fs_stale !! output_path world_one_alert = Some "{ stale }" /\
  exists st',
    persist world_one_alert [("openai", Py.VInt 900)] (initial fs_stale)
      = (Ret tt, st') /\
    files (fs st') !! output_path world_one_alert
      = Some (Json.dumps [("openai", Py.VInt 900)]) /\
    Path.dirname (output_path world_one_alert) ∈ dirs (fs st') /\
    (forall p, p <> output_path world_one_alert ->
       files (fs st') !! p = files (fs (initial fs_stale)) !! p) /\
    forall d2 : Py.dict,
      exists st'',
        persist world_one_alert d2 st' = (Ret tt, st'') /\
        files (fs st'') !! output_path world_one_alert = Some (Json.dumps d2).
Proof.
  split; [vm_compute; reflexivity|].
  apply (persist_overwrites world_one_alert [("openai", Py.VInt 900)]
           (initial fs_stale)).
  unfold writable. simpl.
  split; [left; apply (bool_decide_unpack _); vm_compute; exact I|].
  split; apply (bool_decide_unpack _); vm_compute; exact I.
Defined.

(** C7.  [fetch_usage] returns, for every provider, key and state, and
    the number it returns lies between 0 and 1000. *)
Theorem fetch_usage_range (w : world) (provider api_key : string) (st : state) :
  exists n st',
    fetch_usage w provider api_key st = (Ret n, st') /\ 0 <= n <= 1000.
Proof.
  unfold fetch_usage, bind, print, emit.
  match goal with |- context [random_randint w 0 1000 ?s] =>
    destruct (random_randint_range w 0 1000 s) as (n & st' & Hr & Hn & _); [lia|]
  end.
  exists n, st'. by rewrite Hr.
Qed.

(** C8 (as amended).  In a run that is not aborted, where the usage of
    openai is 900, that of anthropic is 0 and that of the three other
    providers is at most 800: the output file holds the serialized mapping,
    whose text has the lines of openai: 900, of anthropic: 0 and of a
    last_updated ISO-8601 timestamp; and exactly one notification is
    attempted, with a subject that contains openai (one mail session is
    opened for it when mail is configured). *)
Theorem example_run (w : world) (f : filesystem) :
  (run w f).1 = Ret tt ->
  Py.dict_get "openai" (assembled w f) = Some (Py.VInt 900) ->
  Py.dict_get "anthropic" (assembled w f) = Some (Py.VInt 0) ->
  (forall p n, p ∈ ["perplexity"; "gemini"; "huggingface"] ->
     Py.dict_get p (assembled w f) = Some (Py.VInt n) -> n <= 800) ->
  exists text ts,
    files (fs (run w f).2) !! output_path w = Some text /\
    text = Json.dumps (assembled w f) /\
    contains (Json.encode_item ("openai", Py.VInt 900)) text /\
    contains (Json.encode_item ("anthropic", Py.VInt 0)) text /\
    contains (Json.encode_item ("last_updated", Py.VStr ts)) text /\
    Datetime.is_iso8601 ts /\
    notifications (trace (run w f).2)
      = [(alert_subject "openai", alert_body "openai" (Py.VInt 900))] /\
    contains "openai" (alert_subject "openai") /\
    sessions (run w f).2 = (if mail_configured w then 1 else 0)%nat.
Proof.
  intros Hdone%run_completes_iff Hopenai Hanthropic Hothers.
  destruct (run_writable w f Hdone) as (st' & Hrun & Hfs & Hnot & Hsess & _).
  destruct (assembled_values w f) as (Hnd & Hprov & Hts).
  pose proof (assembled_keys w f) as Hkeys.
  assert (alerts (assembled w f)
          = [(alert_subject "openai", alert_body "openai" (Py.VInt 900))]) as Halerts.
  { destruct (Hprov "perplexity") as (n3 & H3); [in_list|].
    destruct (Hprov "gemini") as (n4 & H4); [in_list|].
    destruct (Hprov "huggingface") as (n5 & H5); [in_list|].
    pose proof (Hothers "perplexity" n3 ltac:(in_list) H3) as Hn3.
    pose proof (Hothers "gemini" n4 ltac:(in_list) H4) as Hn4.
    pose proof (Hothers "huggingface" n5 ltac:(in_list) H5) as Hn5.
    destruct (assembled w f) as [|[k1 v1] [|[k2 v2] [|[k3 v3] [|[k4 v4]
      [|[k5 v5] [|[k6 v6] [|? ?]]]]]]]; try discriminate Hkeys.
    injection Hkeys as -> -> -> -> -> ->.
    cbn in Hopenai, Hanthropic, H3, H4, H5, Hts.
    injection Hopenai as ->. injection Hanthropic as ->.
    injection H3 as ->. injection H4 as ->. injection H5 as ->.
    injection Hts as ->.
    unfold alerts. cbn [List.filter fmap list_fmap snd fst over_threshold
      Py.isinstance_int andb].
    replace (n3 >? 800) with false by (symmetry; rewrite Z.gtb_ltb; apply Z.ltb_ge; lia).
    replace (n4 >? 800) with false by (symmetry; rewrite Z.gtb_ltb; apply Z.ltb_ge; lia).
    replace (n5 >? 800) with false by (symmetry; rewrite Z.gtb_ltb; apply Z.ltb_ge; lia).
    reflexivity. }
  rewrite Hrun. simpl. rewrite Hfs, Hnot, Hsess, Halerts.
  exists (Json.dumps (assembled w f)), (Datetime.isoformat (clock w)).
  split; [apply lookup_insert_eq|]. split; [reflexivity|].
  split; [apply dumps_contains; by apply dict_get_elem_of|].
  split; [apply dumps_contains; by apply dict_get_elem_of|].
  split; [apply dumps_contains; by apply dict_get_elem_of|].
  split; [apply isoformat_is_iso8601|]. split; [reflexivity|].
  split; [exists "High API Usage Alert: ", ""; reflexivity|].
  by destruct (mail_configured w).
Qed.

Lemma example_run_witness :
  exists text ts,
    files (fs (run world_one_alert fs_empty).2) !! output_path world_one_alert
      = Some text /\
    text = Json.dumps (assembled world_one_alert fs_empty) /\
    contains (Json.encode_item ("openai", Py.VInt 900)) text /\
    contains (Json.encode_item ("anthropic", Py.VInt 0)) text /\
    contains (Json.encode_item ("last_updated", Py.VStr ts)) text /\
    Datetime.is_iso8601 ts /\
    notifications (trace (run world_one_alert fs_empty).2)
      = [(alert_subject "openai", alert_body "openai" (Py.VInt 900))] /\
    contains "openai" (alert_subject "openai") /\
    sessions (run world_one_alert fs_empty).2
      = (if mail_configured world_one_alert then 1 else 0)%nat.
Proof.
  apply (example_run world_one_alert fs_empty).
  - vm_compute. reflexivity.
  - vm_compute. reflexivity.
  - vm_compute. reflexivity.
  - intros p n Hp. repeat (apply elem_of_cons in Hp as [->|Hp]);
      [| | |by apply elem_of_nil in Hp];
      vm_compute; intros [= <-]; discriminate.
Defined.

(** C8 as stated fails twice over.  With openai at 900 and anthropic at 0
    a second provider can be over the threshold, and then two
    notifications are attempted; and where the write is refused the run is
    aborted, so no file is written and no notification is attempted. *)
Lemma example_needs_more :
  (Py.dict_get "openai" (assembled world_two_alerts fs_empty) = Some (Py.VInt 900) /\
   Py.dict_get "anthropic" (assembled world_two_alerts fs_empty) = Some (Py.VInt 0) /\
   (run world_two_alerts fs_empty).1 = Ret tt /\
   notifications (trace (run world_two_alerts fs_empty).2)
     = [(alert_subject "openai", alert_body "openai" (Py.VInt 900));
        (alert_subject "perplexity", alert_body "perplexity" (Py.VInt 900))]) /\
  (Py.dict_get "openai" (assembled world_one_alert fs_blocked) = Some (Py.VInt 900) /\
   Py.dict_get "anthropic" (assembled world_one_alert fs_blocked) = Some (Py.VInt 0) /\
   files (fs (run world_one_alert fs_blocked).2) !! output_path world_one_alert
     = None /\
   notifications (trace (run world_one_alert fs_blocked).2) = []).
Proof. repeat split; vm_compute; reflexivity. Qed.

(** C9.  Every notification attempt of a run, aborted or not, is the
    alert of one of the five providers; none is about last_updated, whose
    value, a string, never passes the guard of the threshold loop. *)
Theorem only_providers_notify
    (w : world) (f : filesystem) (subject body : string) :
  Notify subject body ∈ trace (run w f).2 ->
  (exists p, p ∈ providers /\ subject = alert_subject p) /\
  subject <> alert_subject "last_updated" /\
  (exists ts, ("last_updated", Py.VStr ts) ∈ assembled w f /\
     over_threshold (Py.VStr ts) = false).
Proof.
  intros Hin%notifications_elem_of.
  destruct (assembled_values w f) as (Hnd & _ & Hts).
  assert (exists p, p ∈ providers /\ subject = alert_subject p) as (p & Hp & ->).
  { destruct (writable_dec w f) as [Hw|Hnw].
    - destruct (run_writable w f Hw) as (st' & Hrun & _ & Hnot & _).
      rewrite Hrun in Hin. simpl in Hin. rewrite Hnot in Hin.
      apply alerts_elem_of in Hin as (k & v & Hkv & Hover & ->).
      exists k. split; [|reflexivity].
      assert (k ∈ Py.dict_keys (assembled w f)) as Hk.
      { apply list_elem_of_fmap. by exists (k, v). }
      rewrite assembled_keys in Hk.
      apply elem_of_app in Hk as [Hk|Hk%list_elem_of_singleton]; [exact Hk|].
      subst k. apply (dict_get_elem_of _ _ _ Hnd) in Hkv.
      rewrite Hts in Hkv. injection Hkv as <-. discriminate.
    - destruct (run_not_writable w f Hnw) as (e & st' & Hrun & _ & Hnot & _).
      rewrite Hrun in Hin. simpl in Hin. rewrite Hnot in Hin.
      by apply elem_of_nil in Hin. }
  split; [by exists p|]. split.
  - intros ->%alert_subject_inj. by apply last_updated_not_provider.
  - eexists. split; [|reflexivity]. by apply dict_get_elem_of.
Qed.

Lemma only_providers_notify_witness :
  (exists p, p ∈ providers /\ alert_subject "openai" = alert_subject p) /\
  alert_subject "openai" <> alert_subject "last_updated" /\
  (exists ts, ("last_updated", Py.VStr ts) ∈ assembled world_one_alert fs_empty /\
     over_threshold (Py.VStr ts) = false).
Proof.
  apply (only_providers_notify world_one_alert fs_empty (alert_subject "openai")
           (alert_body "openai" (Py.VInt 900))).
  apply notifications_elem_of. apply (bool_decide_unpack _). vm_compute. exact I.
Defined.

(** C10.  When one of EMAIL_SENDER, EMAIL_PASSWORD, EMAIL_RECEIVER is set
    to the empty string, [send_email_notification] does what it does when
    the variable is absent: it prints the skip and returns, without
    opening a session or sending a command to the relay. *)
Theorem empty_mail_setting_skips (w : world) (subject body : string) (st : state) :
  environ w !! "EMAIL_SENDER" = Some "" \/ environ w !! "EMAIL_PASSWORD" = Some "" \/
  environ w !! "EMAIL_RECEIVER" = Some "" ->
  exists st',
    send_email_notification w subject body st = (Ret tt, st') /\
    trace st' = trace st ++
      [Notify subject body;
       Stdout "Email configuration missing. Skipping notification."] /\
    smtp_commands (trace st') = smtp_commands (trace st) /\
    sessions st' = sessions st /\ fs st' = fs st.
Proof.
  intros Hempty.
  assert (mail_configured w = false) as Hcfg.
  { apply mail_configured_false. unfold unset_or_empty. tauto. }
  eexists. split; [by apply skipped_notification|]. simpl.
  split; [reflexivity|]. split; [|by split].
  rewrite smtp_commands_app. simpl. by rewrite app_nil_r.
Qed.

Lemma empty_mail_setting_skips_witness :
  exists st',
    send_email_notification world_empty_password "subject" "body" (initial fs_empty)
      = (Ret tt, st') /\
    trace st' = trace (initial fs_empty) ++
      [Notify "subject" "body";
       Stdout "Email configuration missing. Skipping notification."] /\
    smtp_commands (trace st') = smtp_commands (trace (initial fs_empty)) /\
    sessions st' = sessions (initial fs_empty) /\ fs st' = fs (initial fs_empty).
Proof.
  apply (empty_mail_setting_skips world_empty_password "subject" "body"
           (initial fs_empty)).
  right. left. vm_compute. reflexivity.
Defined.

(** * Further properties *)

(** ** The mapping, exactly *)

Lemma dict_set_fresh (k : string) (v : Py.value) (d : Py.dict) :
  k ∉ Py.dict_keys d -> Py.dict_set k v d = d ++ [(k, v)].
Proof.
  unfold Py.dict_keys. induction d as [|[k' v'] d IH]; simpl; intros Hk.
  - reflexivity.
  - apply not_elem_of_cons in Hk as [Hne Hk].
    rewrite decide_False by congruence. f_equal. by apply IH.
Qed.

Lemma polled_keys (w : world) (ps : list string) :
  forall k, Py.dict_keys (polled w k ps) = ps.
Proof.
  unfold Py.dict_keys. induction ps as [|p ps IH]; intros k; simpl.
  - reflexivity.
  - destruct (has_key w p); simpl; by rewrite IH.
Qed.

(** One round of the loop, with its whole effect. *)
Lemma poll_exact (w : world) (p : string) (acc : Py.dict) (st : state) :
  poll w p acc st =
  (Ret (Py.dict_set p
          (Py.VInt (if has_key w p then entropy w (draws st) mod 1001 else 0)) acc),
   mk_state (fs st) (trace st ++ [Stdout (poll_line w p)])
     (draws st + if has_key w p then 1 else 0) (sessions st)).
Proof.
  unfold poll, poll_line, has_key, os_environ_get, api_key_var.
  destruct (Py.truthy _).
  - unfold fetch_usage, bind, print, emit, random_randint, ret. simpl.
    rewrite Nat.add_1_r. reflexivity.
  - unfold bind, print, emit, ret. simpl. rewrite Nat.add_0_r. reflexivity.
Qed.

(** The loop over providers that are new to the mapping: it appends what
    [polled] computes, prints one line per provider and makes one draw per
    key. *)
Lemma for_each_poll_exact (w : world) (ps : list string) :
  forall (acc : Py.dict) (st : state),
    NoDup ps -> (forall p, p ∈ ps -> p ∉ Py.dict_keys acc) ->
    for_each ps (poll w) acc st =
    (Ret (acc ++ polled w (draws st) ps),
     mk_state (fs st) (trace st ++ (Stdout <$> (poll_line w <$> ps)))
       (draws st + keys_present w ps) (sessions st)).
Proof.
  induction ps as [|p ps IH]; intros acc st Hnd Hfresh.
  - simpl. unfold ret, keys_present. simpl.
    rewrite !app_nil_r, Nat.add_0_r. by destruct st.
  - apply NoDup_cons in Hnd as [Hp Hnd].
    assert (p ∉ Py.dict_keys acc) as Hpacc.
    { apply Hfresh, elem_of_cons. by left. }
    simpl. unfold bind at 1. rewrite poll_exact, dict_set_fresh by exact Hpacc.
    rewrite IH; [|exact Hnd|].
    + unfold keys_present. simpl.
      destruct (has_key w p); simpl; rewrite <- !app_assoc; simpl;
        rewrite ?Nat.add_1_r, ?Nat.add_0_r, ?Nat.add_succ_r; reflexivity.
    + intros q Hq. unfold Py.dict_keys. rewrite fmap_app. simpl.
      intros [Hin|Hin%list_elem_of_singleton]%elem_of_app.
      * apply (Hfresh q); [apply elem_of_cons; by right | exact Hin].
      * subst q. contradiction.
Qed.

Lemma assemble_exact (w : world) (st : state) :
  assemble w st =
  (Ret (polled w (draws st) providers
        ++ [("last_updated", Py.VStr (Datetime.isoformat (clock w)))]),
   mk_state (fs st) (trace st ++ (Stdout <$> (poll_line w <$> providers)))
     (draws st + keys_present w providers) (sessions st)).
Proof.
  unfold assemble, bind at 1.
  rewrite for_each_poll_exact;
    [|apply providers_NoDup | intros p _ Hp; by apply elem_of_nil in Hp].
  unfold datetime_now, bind, ret. rewrite app_nil_l.
  rewrite dict_set_fresh; [reflexivity|].
  rewrite polled_keys. apply last_updated_not_provider.
Qed.

Lemma assembled_exact (w : world) (f : filesystem) :
  assembled w f =
  polled w 0 providers
  ++ [("last_updated", Py.VStr (Datetime.isoformat (clock w)))].
Proof. unfold assembled. by rewrite assemble_exact. Qed.

(** ** The exception of the write, exactly *)

(** Opening the output file once its directory is there. *)
Lemma open_w_outcome (w : world) (st : state) :
  Path.dirname (output_path w) ∈ dirs (fs st) ->
  open_w (output_path w) st =
  match open_error w (fs st) with
  | Some e => (Raise e, st)
  | None =>
      (Ret (output_path w),
       mk_state (mk_fs (dirs (fs st)) (<[output_path w := ""]> (files (fs st)))
                   (denied (fs st)))
         (trace st) (draws st) (sessions st))
  end.
Proof.
  intros Hdir. unfold open_w, open_error.
  destruct (decide (output_path w ∈ dirs (fs st))); [reflexivity|].
  rewrite (bool_decide_eq_false_2 (Path.dirname (output_path w) ∉ dirs (fs st)))
    by (intros H; by apply H).
  rewrite andb_false_r.
  destruct (decide (output_path w ∈ denied (fs st))); reflexivity.
Qed.

Lemma open_error_added_dir (w : world) (f : filesystem) :
  open_error w (mk_fs ({[Path.dirname (output_path w)]} ∪ dirs f) (files f) (denied f))
  = open_error w f.
Proof.
  unfold open_error. simpl.
  pose proof (output_path_not_dirname w) as Hne.
  destruct (decide (output_path w ∈ dirs f)) as [Hin|Hnin].
  - rewrite decide_True by (by apply elem_of_union_r). reflexivity.
  - rewrite decide_False by (by apply not_elem_of_added_dir). reflexivity.
Qed.

(** [persist] raises exactly the exception [write_error] computes, having
    written and printed nothing. *)
Lemma persist_raises (w : world) (d : Py.dict) (st : state) (e : exn) :
  write_error w (fs st) = Some e ->
  exists st',
    persist w d st = (Raise e, st') /\
    files (fs st') = files (fs st) /\ denied (fs st') = denied (fs st) /\
    trace st' = trace st /\ sessions st' = sessions st /\ draws st' = draws st.
Proof.
  pose proof (dirname_output_path_nonempty w) as Hne.
  unfold write_error, persist, bind at 1, os_makedirs_exist_ok. simpl.
  destruct (String.eqb_spec (Path.dirname (output_path w)) ""); [contradiction|].
  destruct (decide (Path.dirname (output_path w) ∈ dirs (fs st))) as [Hin|Hnin].
  - intros Herr. unfold ret, bind at 1, with_open_w, bind at 1.
    rewrite open_w_outcome, Herr by exact Hin. exists st. by repeat split.
  - destruct (decide (is_Some _)).
    { intros [= <-]. exists st. by repeat split. }
    destruct (decide (_ ∈ denied (fs st))).
    { intros [= <-]. exists st. by repeat split. }
    intros Herr. unfold set_fs, bind at 1, with_open_w, bind at 1.
    rewrite open_w_outcome by apply elem_of_added_dir. simpl.
    rewrite open_error_added_dir, Herr. eexists. by repeat split.
Qed.

Lemma write_error_None (w : world) (f : filesystem) :
  write_error w f = None <-> writable w f.
Proof.
  unfold write_error, open_error, writable. simpl.
  destruct (decide (Path.dirname (output_path w) ∈ dirs f)) as [Hin|Hnin].
  - destruct (decide (output_path w ∈ dirs f)); [split; [discriminate|tauto]|].
    destruct (decide (output_path w ∈ denied f)); [split; [discriminate|tauto]|].
    split; [|reflexivity]. intros _. tauto.
  - destruct (decide (is_Some (files f !! Path.dirname (output_path w))))
      as [[x Hx]|Hnone].
    { split; [discriminate|]. intros ([?|[Hf _]] & _); [contradiction|].
      rewrite Hf in Hx. discriminate. }
    destruct (decide (Path.dirname (output_path w) ∈ denied f)).
    { split; [discriminate|]. intros ([?|[_ ?]] & _); contradiction. }
    assert (files f !! Path.dirname (output_path w) = None) as Hfile.
    { destruct (files f !! _) eqn:E; [|reflexivity].
      exfalso. apply Hnone. by eexists. }
    destruct (decide (output_path w ∈ dirs f)); [split; [discriminate|tauto]|].
    destruct (decide (output_path w ∈ denied f)); [split; [discriminate|tauto]|].
    split; [|reflexivity]. intros _. tauto.
Qed.

(** ** The second loop, with its trace *)

Lemma smtp_commands_session_events (w : world) (n : nat) (msg : message) :
  smtp_commands (session_events w n msg) = session_commands w n msg.
Proof.
  unfold session_events, session_commands. rewrite smtp_commands_app.
  destruct (relay w n AtConnect), (relay w n AtLogin); reflexivity.
Qed.

Lemma alerts_app (d1 d2 : Py.dict) : alerts (d1 ++ d2) = alerts d1 ++ alerts d2.
Proof. unfold alerts. by rewrite List.filter_app, fmap_app. Qed.

Lemma alerts_length (d : Py.dict) : (length (alerts d) <= length d)%nat.
Proof. unfold alerts. rewrite length_fmap. apply List.filter_length_le. Qed.

(** The loop only adds to the trace, and what it adds begins, for every
    alert, with the entry into [send_email_notification]. *)
Lemma check_thresholds_trace (w : world) (d : Py.dict) :
  forall st : state,
    exists evs,
      check_thresholds w d st =
        (Ret tt,
         mk_state (fs st) (trace st ++ evs) (draws st)
           (sessions st + if mail_configured w then length (alerts d) else 0)) /\
      notifications evs = alerts d /\
      (d = [] -> evs = []) /\
      (mail_configured w = false -> smtp_commands evs = []).
Proof.
  unfold check_thresholds.
  induction d as [|kv d IH]; intros st.
  - exists []. simpl. unfold ret. rewrite app_nil_r.
    replace (sessions st + _)%nat with (sessions st)
      by (destruct (mail_configured w); lia).
    split; [by destruct st|]. by repeat split.
  - simpl. unfold bind at 1. rewrite alert_run, alerts_cons.
    destruct (over_threshold kv.2).
    + rewrite send_email_notification_run.
      destruct (mail_configured w) eqn:Hcfg.
      * match goal with |- context [for_each d (alert w) tt ?s] =>
          destruct (IH s) as (evs & Hrun & Hnot & _ & _) end.
        eexists. rewrite Hrun. simpl. split.
        { rewrite <- app_assoc. simpl. do 2 f_equal. lia. }
        split; [|split; discriminate].
        simpl. rewrite notifications_app, notifications_session_events, Hnot.
        reflexivity.
      * match goal with |- context [for_each d (alert w) tt ?s] =>
          destruct (IH s) as (evs & Hrun & Hnot & _ & Hsmtp) end.
        eexists. rewrite Hrun. simpl. split.
        { rewrite <- app_assoc. simpl. reflexivity. }
        split; [simpl; by rewrite Hnot|]. split; [discriminate|].
        intros _. simpl. by apply Hsmtp.
    + destruct (IH st) as (evs & Hrun & Hnot & _ & Hsmtp).
      exists evs. rewrite Hrun. split; [reflexivity|].
      split; [exact Hnot|]. split; [discriminate|exact Hsmtp].
Qed.

(** ** The whole run, with its trace *)

Lemma run_exact_ok (w : world) (f : filesystem) :
  write_error w f = None ->
  exists evs,
    run w f =
      (Ret tt,
       mk_state (written w (assembled w f) f)
         ((Stdout <$> (poll_line w <$> providers))
          ++ Stdout "Usage data updated." :: evs)
         (keys_present w providers)
         (if mail_configured w then length (alerts (assembled w f)) else 0)) /\
    notifications evs = alerts (assembled w f) /\
    (mail_configured w = false -> smtp_commands evs = []).
Proof.
  intros Hw%write_error_None. unfold run, main, bind at 1.
  rewrite assemble_exact.
  change (draws (initial f)) with 0%nat. rewrite <- (assembled_exact w f). unfold bind at 1.
  rewrite persist_writable by exact Hw. cbn [fs trace draws sessions initial].
  match goal with |- context [check_thresholds w ?d ?s] =>
    destruct (check_thresholds_trace w d s) as (evs & Hrun & Hnot & _ & Hsmtp)
  end.
  exists evs. rewrite Hrun. cbn [fs trace draws sessions].
  rewrite <- app_assoc. by repeat split.
Qed.

Lemma run_exact_raise (w : world) (f : filesystem) (e : exn) :
  write_error w f = Some e ->
  exists st',
    run w f = (Raise e, st') /\
    files (fs st') = files f /\ denied (fs st') = denied f /\
    trace st' = Stdout <$> (poll_line w <$> providers) /\
    sessions st' = 0%nat /\ draws st' = keys_present w providers.
Proof.
  intros Herr. unfold run, main, bind at 1.
  rewrite assemble_exact.
  change (draws (initial f)) with 0%nat. rewrite <- (assembled_exact w f).
  unfold bind at 1.
  match goal with |- context [persist w ?d ?s] =>
    destruct (persist_raises w d s e Herr)
      as (st' & Hp & Hfiles & Hden & Htrace & Hsess & Hdraws)
  end.
  exists st'. rewrite Hp. split; [reflexivity|].
  rewrite Hfiles, Hden, Htrace, Hsess, Hdraws. by repeat split.
Qed.

Lemma keys_present_cons (w : world) (p : string) (ps : list string) :
  keys_present w (p :: ps)
  = ((if has_key w p then 1 else 0) + keys_present w ps)%nat.
Proof. unfold keys_present. simpl. by destruct (has_key w p). Qed.

Lemma keys_present_le (w : world) (ps : list string) :
  (keys_present w ps <= length ps)%nat.
Proof. unfold keys_present. apply List.filter_length_le. Qed.

(** Where a provider stands in the list decides which draw it gets. *)
Lemma polled_lookup (w : world) (ps : list string) :
  forall (k i : nat) (p : string) (rest : Py.dict),
    NoDup ps -> ps !! i = Some p ->
    Py.dict_get p (polled w k ps ++ rest)
    = Some (Py.VInt (if has_key w p
                     then entropy w (k + keys_present w (take i ps)) mod 1001
                     else 0)).
Proof.
  induction ps as [|q ps IH]; intros k i p rest Hnd Hi; [discriminate|].
  apply NoDup_cons in Hnd as [Hq Hnd].
  destruct i as [|i]; simpl in Hi.
  - injection Hi as ->. simpl take. unfold keys_present at 1. simpl.
    rewrite Nat.add_0_r.
    destruct (has_key w p); simpl; by rewrite decide_True.
  - assert (q <> p) as Hne.
    { intros ->. apply Hq. by eapply list_elem_of_lookup_2. }
    simpl take. rewrite keys_present_cons. simpl polled.
    destruct (has_key w q); simpl; rewrite decide_False by exact Hne.
    + rewrite (IH (S k) i p rest Hnd Hi).
      by replace (S k + keys_present w (take i ps))%nat
        with (k + (1 + keys_present w (take i ps)))%nat by lia.
    + by rewrite (IH k i p rest Hnd Hi).
Qed.

(** [polled] reads the key variables of its providers and as many draws
    as there are providers, nothing else. *)
Lemma polled_ext (w w' : world) (ps : list string) :
  forall k : nat,
    (forall p, p ∈ ps -> has_key w p = has_key w' p) ->
    (forall n, (k <= n < k + length ps)%nat -> entropy w n = entropy w' n) ->
    polled w k ps = polled w' k ps.
Proof.
  induction ps as [|p ps IH]; intros k Hkeys Hdraws; [reflexivity|].
  simpl. rewrite <- (Hkeys p) by (apply elem_of_cons; by left).
  assert (forall q, q ∈ ps -> has_key w q = has_key w' q) as Hkeys'.
  { intros q Hq. apply Hkeys, elem_of_cons. by right. }
  simpl in Hdraws. destruct (has_key w p).
  - rewrite (Hdraws k) by lia. f_equal. apply IH; [exact Hkeys'|].
    intros n Hn. apply Hdraws. lia.
  - f_equal. apply IH; [exact Hkeys'|]. intros n Hn. apply Hdraws. lia.
Qed.

(** A run ends as the write decides. *)
Lemma run_outcome_cases (w : world) (f : filesystem) :
  (write_error w f = None /\ (run w f).1 = Ret tt) \/
  (exists e, write_error w f = Some e /\ (run w f).1 = Raise e).
Proof.
  destruct (write_error w f) as [e|] eqn:Herr.
  - right. exists e. split; [reflexivity|].
    destruct (run_exact_raise w f e Herr) as (st' & -> & _). reflexivity.
  - left. split; [reflexivity|].
    destruct (run_exact_ok w f Herr) as (evs & -> & _). reflexivity.
Qed.

Lemma run_completed_write_error (w : world) (f : filesystem) :
  (run w f).1 = Ret tt -> write_error w f = None.
Proof.
  destruct (run_outcome_cases w f) as [[Herr _]|(e & _ & Hrun)]; [by intros _|].
  rewrite Hrun. discriminate.
Qed.

Lemma run_aborted_write_error (w : world) (f : filesystem) :
  (run w f).1 <> Ret tt -> exists e, write_error w f = Some e.
Proof.
  destruct (run_outcome_cases w f) as [[_ Hrun]|(e & Herr & _)]; [|by exists e].
  intros Hne. contradiction.
Qed.

Lemma session_error_None (w : world) (n : nat) :
  session_error w n = None <-> forall stage, relay w n stage = None.
Proof.
  unfold session_error. split.
  - destruct (relay w n AtConnect) eqn:Ec; [discriminate|].
    destruct (relay w n AtQuit) eqn:Eq; [discriminate|].
    destruct (relay w n AtLogin) eqn:El; [discriminate|].
    intros Es. by intros [].
  - intros Hall. by rewrite !Hall.
Qed.

Lemma mail_configured_values (w : world) (sender password receiver : string) :
  environ w !! "EMAIL_SENDER" = Some sender ->
  environ w !! "EMAIL_PASSWORD" = Some password ->
  environ w !! "EMAIL_RECEIVER" = Some receiver ->
  sender <> "" -> password <> "" -> receiver <> "" ->
  mail_configured w = true.
Proof.
  intros Hs Hp Hr Hs' Hp' Hr'. unfold mail_configured, Py.all_truthy.
  rewrite Hs, Hp, Hr. simpl.
  by rewrite !(proj2 (String.eqb_neq _ _)).
Qed.

(** ** Properties beyond the claims *)

(** X1.  The generator is consulted in the order of the provider list and
    only for providers with a key: the usage recorded for a provider with
    a key is the draw numbered by how many providers before it have a key,
    reduced to 0..1000. *)
Theorem usage_is_nth_draw (w : world) (f : filesystem) (i : nat) (p : string) :
  providers !! i = Some p ->
  has_key w p = true ->
  Py.dict_get p (assembled w f)
  = Some (Py.VInt (entropy w (keys_present w (take i providers)) mod 1001)).
Proof.
  intros Hi Hkey. rewrite assembled_exact.
  rewrite (polled_lookup w providers 0 i p _ providers_NoDup Hi), Hkey.
  reflexivity.
Qed.

Lemma usage_is_nth_draw_witness :
  Py.dict_get "huggingface" (assembled world_counting fs_empty)
  = Some (Py.VInt (entropy world_counting
                     (keys_present world_counting (take 4 providers)) mod 1001)) /\
  keys_present world_counting (take 4 providers) = 1%nat.
Proof.
  split; [|vm_compute; reflexivity].
  apply (usage_is_nth_draw world_counting fs_empty 4 "huggingface");
    vm_compute; reflexivity.
Defined.

(** X2.  The mapping depends on the key variables of the five providers,
    the first five draws of the generator and the clock, and on nothing
    else: not on the file system, the mail settings or the relay. *)
Theorem mapping_reads_keys_draws_clock (w w' : world) (f f' : filesystem) :
  (forall p, p ∈ providers -> has_key w p = has_key w' p) ->
  (forall n, (n < 5)%nat -> entropy w n = entropy w' n) ->
  clock w = clock w' ->
  assembled w f = assembled w' f'.
Proof.
  intros Hkeys Hdraws Hclock. rewrite !assembled_exact, Hclock.
  f_equal. apply polled_ext; [exact Hkeys|].
  intros n [_ Hn]. apply Hdraws. exact Hn.
Qed.

Lemma mapping_reads_keys_draws_clock_witness :
  assembled world_one_alert fs_empty = assembled world_no_connection fs_blocked.
Proof.
  apply (mapping_reads_keys_draws_clock world_one_alert world_no_connection
           fs_empty fs_blocked).
  - intros p Hp. repeat (apply elem_of_cons in Hp as [->|Hp]);
      [| | | | |by apply elem_of_nil in Hp]; vm_compute; reflexivity.
  - reflexivity.
  - reflexivity.
Defined.

(** X3.  A completed run prints one line per provider, in the order of
    the list, then the confirmation of the write, and only then enters
    [send_email_notification]: for the alerts of the mapping, in the order
    of its entries, each with the subject and the body built from the
    provider and its usage. *)
Theorem completed_run_trace (w : world) (f : filesystem) :
  (run w f).1 = Ret tt ->
  exists evs,
    trace (run w f).2
      = (Stdout <$> (poll_line w <$> providers))
        ++ Stdout "Usage data updated." :: evs /\
    notifications evs
      = (fun kv => (alert_subject kv.1, alert_body kv.1 kv.2))
          <$> List.filter (fun kv => over_threshold kv.2) (assembled w f).
Proof.
  intros Herr%run_completed_write_error.
  destruct (run_exact_ok w f Herr) as (evs & Hrun & Hnot & _).
  exists evs. rewrite Hrun. split; [reflexivity|exact Hnot].
Qed.

Lemma completed_run_trace_witness :
  exists evs,
    trace (run world_counting fs_empty).2
      = (Stdout <$> (poll_line world_counting <$> providers))
        ++ Stdout "Usage data updated." :: evs /\
    notifications evs
      = (fun kv => (alert_subject kv.1, alert_body kv.1 kv.2))
          <$> List.filter (fun kv => over_threshold kv.2)
                (assembled world_counting fs_empty).
Proof.
  apply (completed_run_trace world_counting fs_empty). vm_compute. reflexivity.
Defined.

(** X4.  In every run, completed or aborted, the generator is drawn from
    exactly once per provider with a key: [fetch_usage] is called for
    these providers and for no other. *)
Theorem one_draw_per_key (w : world) (f : filesystem) :
  draws (run w f).2 = keys_present w providers /\
  (keys_present w providers <= 5)%nat.
Proof.
  split; [|apply (keys_present_le w providers)].
  destruct (write_error w f) as [e|] eqn:Herr.
  - destruct (run_exact_raise w f e Herr) as (st' & -> & _ & _ & _ & _ & Hd).
    exact Hd.
  - destruct (run_exact_ok w f Herr) as (evs & -> & _). reflexivity.
Qed.

(** X5.  Whatever the directory of the script, the output file goes into
    the directory [../public] beside it: that is the directory
    [os.makedirs] is asked for; it is never the empty path and never the
    output path itself. *)
Theorem output_directory (w : world) :
  Path.dirname (output_path w) = Path.join (script_dir w) "../public" /\
  Path.dirname (output_path w) <> "" /\
  output_path w <> Path.dirname (output_path w).
Proof.
  split; [apply dirname_output_path|].
  split; [apply dirname_output_path_nonempty | apply output_path_not_dirname].
Qed.

(** X7.  A run aborted by the write has printed the lines of the
    providers and nothing after them (so not the confirmation of the
    write), has entered [send_email_notification] not once, has sent no
    command to the relay and has opened no mail session. *)
Theorem aborted_run_sends_no_mail (w : world) (f : filesystem) :
  (run w f).1 <> Ret tt ->
  trace (run w f).2 = Stdout <$> (poll_line w <$> providers) /\
  notifications (trace (run w f).2) = [] /\
  smtp_commands (trace (run w f).2) = [] /\
  sessions (run w f).2 = 0%nat.
Proof.
  intros [e Herr]%run_aborted_write_error.
  destruct (run_exact_raise w f e Herr)
    as (st' & -> & _ & _ & Htrace & Hsess & _).
  cbn [snd]. rewrite Htrace, notifications_stdout, smtp_commands_stdout.
  by repeat split.
Qed.

Lemma aborted_run_sends_no_mail_witness :
  trace (run world_one_alert fs_directory_in_the_way).2
    = Stdout <$> (poll_line world_one_alert <$> providers) /\
  notifications (trace (run world_one_alert fs_directory_in_the_way).2) = [] /\
  smtp_commands (trace (run world_one_alert fs_directory_in_the_way).2) = [] /\
  sessions (run world_one_alert fs_directory_in_the_way).2 = 0%nat.
Proof.
  apply (aborted_run_sends_no_mail world_one_alert fs_directory_in_the_way).
  vm_compute. discriminate.
Defined.

Lemma polled_length (w : world) (ps : list string) (k : nat) :
  length (polled w k ps) = length ps.
Proof. rewrite <- (polled_keys w ps k) at 2. unfold Py.dict_keys. by rewrite length_fmap. Qed.

Lemma alerts_assembled_length (w : world) (f : filesystem) :
  (length (alerts (assembled w f)) <= 5)%nat.
Proof.
  rewrite assembled_exact, alerts_app, length_app.
  pose proof (alerts_length (polled w 0 providers)) as Hle.
  rewrite polled_length in Hle. simpl in Hle.
  change (alerts [("last_updated", Py.VStr (Datetime.isoformat (clock w)))])
    with (@nil (string * string)).
  simpl. lia.
Qed.

(** X10.  No run enters [send_email_notification] more than five times or
    opens more than five mail sessions. *)
Theorem at_most_five_notifications (w : world) (f : filesystem) :
  (length (notifications (trace (run w f).2)) <= 5)%nat /\
  (sessions (run w f).2 <= 5)%nat.
Proof.
  pose proof (alerts_assembled_length w f) as Hle.
  destruct (write_error w f) as [e|] eqn:Herr.
  - destruct (run_exact_raise w f e Herr) as (st' & -> & _ & _ & Htrace & Hsess & _).
    simpl. rewrite Htrace, notifications_stdout, Hsess. simpl. lia.
  - destruct (run_exact_ok w f Herr) as (evs & -> & Hnot & _).
    cbn [snd trace sessions].
    rewrite notifications_app, notifications_stdout. simpl. rewrite Hnot.
    split; [exact Hle|]. destruct (mail_configured w); lia.
Qed.

(** X11.  When one of the three mail settings is missing or empty, a
    whole run sends no command to the relay and opens no session, however
    many providers are over the threshold. *)
Theorem unconfigured_run_sends_no_mail (w : world) (f : filesystem) :
  mail_configured w = false ->
  smtp_commands (trace (run w f).2) = [] /\ sessions (run w f).2 = 0%nat.
Proof.
  intros Hcfg. destruct (write_error w f) as [e|] eqn:Herr.
  - destruct (run_exact_raise w f e Herr) as (st' & -> & _ & _ & Htrace & Hsess & _).
    simpl. by rewrite Htrace, smtp_commands_stdout.
  - destruct (run_exact_ok w f Herr) as (evs & -> & _ & Hsmtp).
    cbn [snd trace sessions].
    rewrite Hcfg, smtp_commands_app, smtp_commands_stdout. simpl.
    by rewrite (Hsmtp Hcfg).
Qed.

Lemma unconfigured_run_sends_no_mail_witness :
  smtp_commands (trace (run world_empty_password fs_empty).2) = [] /\
  sessions (run world_empty_password fs_empty).2 = 0%nat.
Proof.
  apply (unconfigured_run_sends_no_mail world_empty_password fs_empty).
  vm_compute. reflexivity.
Defined.

(** X12.  With the mail settings in place, a run opens exactly one mail
    session per entry into [send_email_notification], whatever the relay
    does to the sessions: a failed notification is not tried again. *)
Theorem one_session_per_notification (w : world) (f : filesystem) :
  mail_configured w = true ->
  sessions (run w f).2 = length (notifications (trace (run w f).2)).
Proof.
  intros Hcfg. destruct (write_error w f) as [e|] eqn:Herr.
  - destruct (run_exact_raise w f e Herr) as (st' & -> & _ & _ & Htrace & Hsess & _).
    simpl. by rewrite Htrace, notifications_stdout, Hsess.
  - destruct (run_exact_ok w f Herr) as (evs & -> & Hnot & _).
    cbn [snd trace sessions].
    rewrite Hcfg, notifications_app, notifications_stdout. simpl.
    by rewrite Hnot.
Qed.

Lemma one_session_per_notification_witness :
  sessions (run world_bad_login fs_empty).2
  = length (notifications (trace (run world_bad_login fs_empty).2)).
Proof.
  apply (one_session_per_notification world_bad_login fs_empty).
  vm_compute. reflexivity.
Defined.

(** X13.  With the three settings in place and a relay that accepts every
    stage, one call connects to smtp.gmail.com on port 465, logs in as the
    sender with the password, sends from the sender to the receiver the
    message with the given subject and body and these two addresses in its
    headers, quits, and prints the success line; in this order, and
    nothing else. *)
Theorem successful_delivery
    (w : world) (subject body sender password receiver : string) (st : state) :
  environ w !! "EMAIL_SENDER" = Some sender ->
  environ w !! "EMAIL_PASSWORD" = Some password ->
  environ w !! "EMAIL_RECEIVER" = Some receiver ->
  sender <> "" -> password <> "" -> receiver <> "" ->
  (forall stage, relay w (sessions st) stage = None) ->
  send_email_notification w subject body st =
  (Ret tt,
   mk_state (fs st)
     (trace st ++
      [Notify subject body;
       SmtpConnect "smtp.gmail.com" 465;
       SmtpLogin sender password;
       SmtpSendmail sender receiver (mk_message body subject sender receiver);
       SmtpQuit;
       Stdout "Email sent successfully!"])
     (draws st) (S (sessions st))).
Proof.
  intros Hs Hp Hr Hs' Hp' Hr' Hrelay.
  rewrite send_email_notification_run.
  rewrite (mail_configured_values w sender password receiver) by assumption.
  unfold session_events, session_commands, session_error, alert_message.
  rewrite !Hrelay, Hs, Hp, Hr. reflexivity.
Qed.

Lemma successful_delivery_witness :
  send_email_notification world_one_alert "subject" "body" (initial fs_empty) =
  (Ret tt,
   mk_state (fs (initial fs_empty))
     (trace (initial fs_empty) ++
      [Notify "subject" "body";
       SmtpConnect "smtp.gmail.com" 465;
       SmtpLogin "ops@example.org" "app-password";
       SmtpSendmail "ops@example.org" "oncall@example.org"
         (mk_message "body" "subject" "ops@example.org" "oncall@example.org");
       SmtpQuit;
       Stdout "Email sent successfully!"])
     (draws (initial fs_empty)) (S (sessions (initial fs_empty)))).
Proof.
  apply (successful_delivery world_one_alert "subject" "body"
           "ops@example.org" "app-password" "oncall@example.org"
           (initial fs_empty));
    first [vm_compute; reflexivity | discriminate].
Defined.

(** X14.  With the three settings in place, a call always ends by
    printing one line, and that line is the success line exactly when no
    stage of the session fails: a failed QUIT after a delivered message is
    reported as a failure too. *)
Theorem success_line_iff_no_failure
    (w : world) (subject body : string) (st : state) :
  mail_configured w = true ->
  exists st' evs line,
    send_email_notification w subject body st = (Ret tt, st') /\
    trace st' = trace st ++ evs ++ [Stdout line] /\
    (line = "Email sent successfully!"
     <-> forall stage, relay w (sessions st) stage = None).
Proof.
  intros Hcfg. rewrite send_email_notification_run, Hcfg.
  unfold session_events.
  eexists _, (Notify subject body :: session_commands w (sessions st) _), _.
  split; [reflexivity|]. split; [reflexivity|].
  rewrite <- session_error_None.
  destruct (session_error w (sessions st)) as [why|].
  - split; [|discriminate]. intros H. exfalso. revert H.
    change ("Failed to send email: " +:+ why)
      with (String "F" ("ailed to send email: " +:+ why)).
    discriminate.
  - by split.
Qed.

Lemma success_line_iff_no_failure_witness :
  exists st' evs line,
    send_email_notification world_bad_login "subject" "body" (initial fs_empty)
      = (Ret tt, st') /\
    trace st' = trace (initial fs_empty) ++ evs ++ [Stdout line] /\
    (line = "Email sent successfully!"
     <-> forall stage, relay world_bad_login (sessions (initial fs_empty)) stage
                       = None).
Proof.
  apply (success_line_iff_no_failure world_bad_login "subject" "body"
           (initial fs_empty)).
  vm_compute. reflexivity.
Defined.

(** X15.  When the connection to the relay fails, nothing more is sent:
    no login, no message and no QUIT; the error of the connection is
    printed and the call returns. *)
Theorem refused_connection
    (w : world) (subject body why : string) (st : state) :
  mail_configured w = true ->
  relay w (sessions st) AtConnect = Some why ->
  send_email_notification w subject body st =
  (Ret tt,
   mk_state (fs st)
     (trace st ++
      [Notify subject body;
       SmtpConnect "smtp.gmail.com" 465;
       Stdout ("Failed to send email: " +:+ why)])
     (draws st) (S (sessions st))).
Proof.
  intros Hcfg Hrelay. rewrite send_email_notification_run, Hcfg.
  unfold session_events, session_commands, session_error.
  rewrite Hrelay. reflexivity.
Qed.

Lemma refused_connection_witness :
  send_email_notification world_no_connection "subject" "body" (initial fs_empty) =
  (Ret tt,
   mk_state (fs (initial fs_empty))
     (trace (initial fs_empty) ++
      [Notify "subject" "body";
       SmtpConnect "smtp.gmail.com" 465;
       Stdout ("Failed to send email: " +:+ "[Errno 111] Connection refused")])
     (draws (initial fs_empty)) (S (sessions (initial fs_empty)))).
Proof.
  apply (refused_connection world_no_connection "subject" "body"
           "[Errno 111] Connection refused" (initial fs_empty)).
  - vm_compute. reflexivity.
  - reflexivity.
Defined.

(** X16.  When the login is refused, the message is not sent: the call
    issues no sendmail command, prints a failure line as its last act and
    returns normally. *)
Theorem refused_login_sends_no_message
    (w : world) (subject body why : string) (st : state) :
  mail_configured w = true ->
  relay w (sessions st) AtConnect = None ->
  relay w (sessions st) AtLogin = Some why ->
  exists st' evs reason,
    send_email_notification w subject body st = (Ret tt, st') /\
    trace st' = trace st ++ Notify subject body :: evs
                  ++ [Stdout ("Failed to send email: " +:+ reason)] /\
    (forall sender receiver msg, SmtpSendmail sender receiver msg ∉ evs) /\
    (reason = why \/ relay w (sessions st) AtQuit = Some reason).
Proof.
  intros Hcfg Hconnect Hlogin. rewrite send_email_notification_run, Hcfg.
  unfold session_events, session_commands, session_error.
  rewrite Hconnect, Hlogin.
  eexists _, _, (default why (relay w (sessions st) AtQuit)).
  split; [|split; [|split]].
  - reflexivity.
  - cbn [trace]. do 3 f_equal. by destruct (relay w (sessions st) AtQuit).
  - intros sender receiver msg Hin.
    repeat (apply elem_of_cons in Hin as [Hin|Hin]; [discriminate|]).
    by apply elem_of_nil in Hin.
  - destruct (relay w (sessions st) AtQuit); [by right | by left].
Qed.

Lemma refused_login_sends_no_message_witness :
  exists st' evs reason,
    send_email_notification world_bad_login "subject" "body" (initial fs_empty)
      = (Ret tt, st') /\
    trace st' = trace (initial fs_empty) ++ Notify "subject" "body" :: evs
                  ++ [Stdout ("Failed to send email: " +:+ reason)] /\
    (forall sender receiver msg, SmtpSendmail sender receiver msg ∉ evs) /\
    (reason = "(535, b'5.7.8 Username and Password not accepted')" \/
     relay world_bad_login (sessions (initial fs_empty)) AtQuit = Some reason).
Proof.
  apply (refused_login_sends_no_message world_bad_login "subject" "body"
           "(535, b'5.7.8 Username and Password not accepted')"
           (initial fs_empty));
    vm_compute; reflexivity.
Defined.

(** X17.  Every entry of the mapping other than the timestamp holds an
    integer between 0 and 1000; so an entry that passes the guard of the
    threshold loop holds an integer between 801 and 1000. *)
Theorem recorded_usage_bounds (w : world) (f : filesystem) :
  Forall (fun kv => kv.1 = "last_updated" \/
                    exists n, kv.2 = Py.VInt n /\ 0 <= n <= 1000)
    (assembled w f) /\
  Forall (fun kv => over_threshold kv.2 = true ->
                    exists n, kv.2 = Py.VInt n /\ 801 <= n <= 1000)
    (assembled w f).
Proof.
  assert (forall k v, (k, v) ∈ assembled w f ->
            (k = "last_updated" /\ exists ts, v = Py.VStr ts) \/
            exists n, v = Py.VInt n /\ 0 <= n <= 1000) as Hall.
  { intros k v Hin.
    destruct (assemble_run w (initial f))
      as (d & st1 & Hasm & _ & _ & Hts & Hprov).
    assert (assembled w f = d) as Hd by (unfold assembled; by rewrite Hasm).
    assert (k ∈ Py.dict_keys (assembled w f)) as Hk.
    { apply list_elem_of_fmap. by exists (k, v). }
    rewrite assembled_keys in Hk.
    apply (dict_get_elem_of _ _ _ (assembled_NoDup w f)) in Hin.
    rewrite Hd in Hin.
    apply elem_of_app in Hk as [Hk|Hk%list_elem_of_singleton].
    - right. destruct (Hprov k Hk) as (n & Hn & Hrange & _). exists n.
      rewrite Hn in Hin. injection Hin as <-. by split.
    - left. subst k. rewrite Hts in Hin. injection Hin as <-.
      split; [reflexivity | by eexists]. }
  split; apply Forall_forall; intros [k v] Hin;
    destruct (Hall k v Hin) as [[-> [ts ->]]|(n & -> & Hn)]; simpl.
  - by left.
  - right. by exists n.
  - discriminate.
  - unfold over_threshold. simpl. intros Hgt. exists n. split; [reflexivity|].
    rewrite Z.gtb_ltb in Hgt. apply Z.ltb_lt in Hgt. lia.
Qed.
